(** * TrackMyMood: sentiment scorer and journal routes

    A shallow embedding of [server/models/JournalEntry.js] (the
    [JournalEntry] Mongoose schema, the scorer [determineMood] /
    [analyzeSentiment] and the handlers of the journal router) and of the
    submit handler of [src/pages/JournalEntry.tsx], followed by the
    properties proved about them.

    JavaScript numbers are IEEE-754 binary64 values; they are modelled by
    [spec_float] with [prec = 53] and [emax = 1024], so that comparison,
    addition and subtraction are the rounding operations the engine runs.
    Strings are modelled over the ASCII range. *)

From Stdlib Require Import ZArith List Bool Ascii String Lia.
From Stdlib Require Import Floats.SpecFloat.
From stdpp Require Import gmap strings sorting.

Open Scope string_scope.
Open Scope Z_scope.

(* ===================================================================== *)
(** * JavaScript numbers                                                  *)
(* ===================================================================== *)

Module JsNumber.

Definition prec : Z := 53.
Definition emax : Z := 1024.

Definition number : Type := spec_float.

(** The value [m * 2^e], rounded to the nearest binary64. *)
Definition of_scaled (m e : Z) : number := binary_normalize prec emax m e false.

(** Numeric literals of an integer value. *)
Definition of_Z (z : Z) : number := of_scaled z 0.

(** [k / 2] as a binary64; the keyword adjustment only takes such values. *)
Definition of_halves (k : Z) : number := of_scaled k (-1).

Definition zero : number := S754_zero false.
Definition half : number := Eval vm_compute in of_halves 1.   (* 0.5 *)
Definition two : number := Eval vm_compute in of_Z 2.
Definition four : number := Eval vm_compute in of_Z 4.

Definition neg (x : number) : number := SFopp x.               (* -x *)
Definition add (x y : number) : number := SFadd prec emax x y.  (* x + y *)
Definition sub (x y : number) : number := SFsub prec emax x y.  (* x - y *)
Definition gt (x y : number) : bool := SFltb y x.               (* x > y *)
Definition le (x y : number) : bool := SFleb x y.               (* x <= y *)

Definition is_nan (x : number) : bool :=
  match x with S754_nan => true | _ => false end.

Definition is_zero (x : number) : bool :=
  match x with S754_zero _ => true | _ => false end.

(** ToBoolean on a number: [0], [-0] and [NaN] are falsy. *)
Definition truthy (x : number) : bool := negb (is_zero x || is_nan x).

(** [q] and [t] are the mantissa and the exponent of the double [k / 2]. *)
Definition halves_repr (k : Z) (q : positive) (t : Z) : Prop :=
  Zpos (digits2_pos q) = 53 /\ -53 <= t <= -1
  /\ Zpos q = Z.abs k * 2 ^ (-1 - t).

End JsNumber.

Export JsNumber.

(* ===================================================================== *)
(** * JavaScript strings (ASCII range)                                    *)
(* ===================================================================== *)

Module JsString.

Definition lower_ascii (c : ascii) : ascii :=
  let n := N_of_ascii c in
  if ((65 <=? n) && (n <=? 90))%N then ascii_of_N (n + 32) else c.

(** [String.prototype.toLowerCase]. *)
Fixpoint toLowerCase (s : string) : string :=
  match s with
  | EmptyString => EmptyString
  | String c rest => String (lower_ascii c) (toLowerCase rest)
  end.

Definition is_space (c : ascii) : bool :=
  let n := N_of_ascii c in
  ((9 <=? n) && (n <=? 13) || (n =? 32))%N.

Fixpoint trimStart (s : string) : string :=
  match s with
  | EmptyString => EmptyString
  | String c rest => if is_space c then trimStart rest else s
  end.

(** [trimEnd] drops the whitespace that nothing but whitespace follows. *)
Fixpoint trimEnd (s : string) : string :=
  match s with
  | EmptyString => EmptyString
  | String c rest =>
      match trimEnd rest with
      | EmptyString => if is_space c then EmptyString else String c EmptyString
      | kept => String c kept
      end
  end.

(** The string is empty or starts with a character that is no whitespace. *)
Definition starts_clean (s : string) : Prop :=
  match s with
  | EmptyString => True
  | String c _ => is_space c = false
  end.

(** [String.prototype.trim]. *)
Definition trim (s : string) : string := trimEnd (trimStart s).

(** ToBoolean on a string: only the empty string is falsy. *)
Definition truthy (s : string) : bool :=
  match s with EmptyString => false | String _ _ => true end.

(** [Array.prototype.includes] on an array of strings. *)
Definition includes (xs : list string) (x : string) : bool :=
  existsb (String.eqb x) xs.

End JsString.

Export JsString.

(* ===================================================================== *)
(** * Values as they arrive in a request body                             *)
(* ===================================================================== *)

#[warnings="-register-all"]
Inductive value : Type :=
| VUndefined
| VNull
| VBool (b : bool)
| VNum (n : number)
| VStr (s : string)
| VArr (items : list value)
| VObj (props : list (string * value)).

(** ToBoolean. *)
Definition value_truthy (v : value) : bool :=
  match v with
  | VUndefined | VNull => false
  | VBool b => b
  | VNum n => JsNumber.truthy n
  | VStr s => JsString.truthy s
  | VArr _ | VObj _ => true
  end.

(** A property of a JSON body at the type its sender gives it: absent
    ([undefined]), [null], or a value of that type. *)
Inductive field (A : Type) : Type :=
| Absent
| Null
| Val (a : A).

Arguments Absent {A}.
Arguments Null {A}.
Arguments Val {A} a.

Definition field_truthy {A : Type} (t : A -> bool) (f : field A) : bool :=
  match f with
  | Val a => t a
  | _ => false
  end.

(** [f || d] where [d] has the field's type. *)
Definition field_or {A : Type} (t : A -> bool) (f : field A) (d : A) : A :=
  match f with
  | Val a => if t a then a else d
  | _ => d
  end.

Inductive exn : Type :=
| TypeError (msg : string)
| ValidationError (path : string).

(* ===================================================================== *)
(** * The scorer: determineMood and analyzeSentiment                      *)
(* ===================================================================== *)

Module Scorer.

(** The two objects built from the [natural] package at module load:
    [tokenizer = new natural.WordTokenizer()] and
    [analyzer = new natural.SentimentAnalyzer('English', PorterStemmer, 'afinn')].
    The package is a third-party dependency; the scorer is written against
    these two methods, which read their argument only. *)
Class Natural : Type := {
  tokenize : string -> list string;
  getSentiment : list string -> number
}.

Record analysis : Type := { score : number; mood : string }.

Definition determineMood (score : number) : string :=
  if gt score four then "Ecstatic"
  else if gt score two then "Happy"
  else if gt score half then "Content"
  else if gt score (neg half) then "Neutral"
  else if gt score (neg two) then "Sad"
  else if gt score (neg four) then "Depressed"
  else "Very Depressed".

Module emotionalKeywords.
Definition positive : list string :=
  ["happy"; "joy"; "excited"; "wonderful"; "love"; "great"; "amazing"].
Definition negative : list string :=
  ["sad"; "depressed"; "anxious"; "worried"; "stressed"; "angry"; "upset"].
End emotionalKeywords.

(** The body of the [tokens.forEach] callback, as a function of the running
    [adjustment]. *)
Definition adjust_token (adjustment : number) (token : string) : number :=
  let adjustment :=
    if includes emotionalKeywords.positive token then add adjustment half
    else adjustment in
  if includes emotionalKeywords.negative token then sub adjustment half
  else adjustment.

Definition keyword_adjustment (tokens : list string) : number :=
  fold_left adjust_token tokens zero.

(** [analyzeSentiment] on a string argument. *)
Definition analyzeText `{Natural} (text : string) : analysis :=
  let tokens := tokenize (toLowerCase text) in
  let score := getSentiment tokens in
  let adjustment := keyword_adjustment tokens in
  let finalScore := add score adjustment in
  {| score := finalScore; mood := determineMood finalScore |}.

(** [analyzeSentiment] on any argument: [text.toLowerCase()] throws a
    [TypeError] unless [text] is a string. *)
Definition analyzeSentiment `{Natural} (text : value) : exn + analysis :=
  match text with
  | VStr s => inr (analyzeText s)
  | VUndefined | VNull => inl (TypeError "Cannot read properties of undefined")
  | _ => inl (TypeError "text.toLowerCase is not a function")
  end.

End Scorer.

Export Scorer.

(* ===================================================================== *)
(** * The analyzer the specification describes                            *)
(* ===================================================================== *)

Module SpecLexicon.

Fixpoint rev_string (s acc : string) : string :=
  match s with
  | EmptyString => acc
  | String c rest => rev_string rest (String c acc)
  end.

Definition is_word_char (c : ascii) : bool :=
  let n := N_of_ascii c in
  ((48 <=? n) && (n <=? 57) || (65 <=? n) && (n <=? 90)
   || (97 <=? n) && (n <=? 122) || (n =? 95))%N.

(** [words s cur] scans [s] with the word read so far in [cur]
    (reversed), closing a token at every delimiter. *)
Fixpoint words (s : string) (cur : string) : list string :=
  match s with
  | EmptyString =>
      match cur with
      | EmptyString => []
      | _ => [rev_string cur EmptyString]
      end
  | String c rest =>
      if is_word_char c then words rest (String c cur)
      else match cur with
           | EmptyString => words rest EmptyString
           | _ => rev_string cur EmptyString :: words rest EmptyString
           end
  end.

(** Modelled from the spec: the tokenizer of the [natural] package is not
    part of the repository; section 4.1 step 1 describes it as splitting
    the lowercased text into word tokens at whitespace and punctuation,
    and section 3 allows the sequence to be empty. *)
Definition word_tokenize (s : string) : list string := words s EmptyString.

Definition polarity (lexicon : list (string * number)) (token : string)
  : option number :=
  snd <$> List.find (fun entry => String.eqb token (fst entry)) lexicon.

(** Modelled from the spec: the polarity analyzer of the [natural] package
    is not part of the repository; section 4.1 step 2 describes the base
    score as the polarity values summed over the tokens found in the
    lexicon, unrecognized tokens contributing zero, and an empty token
    sequence scoring zero. *)
Definition lexicon_score (lexicon : list (string * number)) (tokens : list string)
  : number :=
  fold_left (fun total token =>
               match polarity lexicon token with
               | Some v => add total v
               | None => total
               end) tokens zero.

(** Whether the lexicon has an entry for the token. *)
Definition known (lexicon : list (string * number)) (token : string) : bool :=
  match polarity lexicon token with
  | Some _ => true
  | None => false
  end.

Definition spec_natural (lexicon : list (string * number)) : Natural :=
  {| tokenize := word_tokenize; getSentiment := lexicon_score lexicon |}.

(** A few AFINN-165 entries, enough to run the scorer on examples. *)
Definition afinn_sample : list (string * number) :=
  [("happy", of_Z 3); ("excited", of_Z 3); ("love", of_Z 3);
   ("good", of_Z 3); ("sad", of_Z (-2)); ("angry", of_Z (-3));
   ("upset", of_Z (-2)); ("terrible", of_Z (-3))].

Definition sample : Natural := spec_natural afinn_sample.

(** A lexicon whose two words score exactly 2 and exactly 4. *)
Definition boundary : Natural :=
  spec_natural [("fine", two); ("superb", four)].

End SpecLexicon.

(* ===================================================================== *)
(** * The JournalEntry schema                                             *)
(* ===================================================================== *)

Module Schema.

Record Tags : Type := {
  emotions : list string;
  people : list string;
  activities : list string
}.

(** A document of the [JournalEntry] model. [user] is the owner's id as
    [toString] prints it and the dates are millisecond timestamps.
    [sentimentScore] is [None] when the document holds [null] there,
    which the PUT handler can assign. *)
Record JournalEntry : Type := {
  user : string;
  title : string;
  content : string;
  sentimentScore : option number;
  mood : string;
  tags : Tags;
  createdAt : Z;
  updatedAt : Z
}.

(** [title] is declared with [trim: true]: the setter trims on assignment. *)
Definition set_title (t : string) (e : JournalEntry) : JournalEntry :=
  {| user := user e; title := trim t; content := content e;
     sentimentScore := sentimentScore e; mood := mood e; tags := tags e;
     createdAt := createdAt e; updatedAt := updatedAt e |}.

(** The [required: true] validators, in schema order: a required string
    must be non-empty and a required number must not be [null]. [user] is
    always set, from [req.user.id]. *)
Definition validate (e : JournalEntry) : option exn :=
  if negb (JsString.truthy (title e)) then Some (ValidationError "title")
  else if negb (JsString.truthy (content e)) then Some (ValidationError "content")
  else if negb (bool_decide (is_Some (sentimentScore e))) then
         Some (ValidationError "sentimentScore")
  else if negb (JsString.truthy (mood e)) then Some (ValidationError "mood")
  else None.

(** [JournalEntrySchema.pre('save', ...)]: [this.updatedAt = Date.now()]. *)
Definition pre_save (now : Z) (e : JournalEntry) : JournalEntry :=
  {| user := user e; title := title e; content := content e;
     sentimentScore := sentimentScore e; mood := mood e; tags := tags e;
     createdAt := createdAt e; updatedAt := now |}.

(** What holds of a document that went through the setters and the
    validators on its way into the collection. *)
Definition well_formed (e : JournalEntry) : Prop :=
  validate e = None /\ trim (title e) = title e.

End Schema.

(** The [journalentries] collection, keyed by [_id]. *)
Abbreviation store := (gmap string Schema.JournalEntry).

(** [doc.save()] for the document stored under [id]: validation, the
    pre-save hook, then the write. A failed validation rejects and writes
    nothing. *)
Definition save (now : Z) (id : string) (e : Schema.JournalEntry) (db : store)
  : exn + (Schema.JournalEntry * store) :=
  match Schema.validate e with
  | Some err => inl err
  | None => let saved := Schema.pre_save now e in inr (saved, <[id := saved]> db)
  end.

(* ===================================================================== *)
(** * Request and response bodies                                         *)
(* ===================================================================== *)

Module Req.

Record Tags : Type := {
  emotions : field (list string);
  people : field (list string);
  activities : field (list string)
}.

(** [req.body] of POST and PUT /api/journal, at the types the page sends:
    strings, a number, string arrays, each possibly absent or [null]. *)
Record Entry : Type := {
  title : field string;
  content : field string;
  sentimentScore : field number;
  mood : field string;
  tags : field Tags
}.

Definition empty : Entry :=
  {| title := Absent; content := Absent; sentimentScore := Absent;
     mood := Absent; tags := Absent |}.

End Req.

(** Every stored document was written by [save]. *)
Definition store_ok (db : store) : Prop :=
  forall id e, db !! id = Some e -> Schema.well_formed e.

(** An array is truthy whatever it holds. *)
Definition array_truthy (xs : list string) : bool := true.

Inductive body : Type :=
| Message (message : string)
| Analysis (result : analysis)
| Document (entry : Schema.JournalEntry).

Record response : Type := { status : Z; json : body }.

Definition respond (code : Z) (b : body) : response :=
  {| status := code; json := b |}.

(* ===================================================================== *)
(** * POST /api/journal/analyze                                           *)
(* ===================================================================== *)

(** The handler, reached once the [auth] middleware has let the request
    through. One run of it is recorded as the response it sent, or the
    exception that escaped it, and the arguments [analyzeSentiment] was
    called with. [json] is the object handed to [res.json]. *)
Record analyze_run : Type := {
  sent : exn + response;
  scorer_calls : list value
}.

Definition analyze_route `{Natural} (text : value) : analyze_run :=
  if negb (value_truthy text) then
    {| sent := inr (respond 400 (Message "Text is required"));
       scorer_calls := [] |}
  else
    match analyzeSentiment text with
    | inl e => {| sent := inl e; scorer_calls := [text] |}
    | inr result =>
        {| sent := inr (respond 200 (Analysis result)); scorer_calls := [text] |}
    end.

(** [req.body.text] of a request whose body follows the documented shape
    [{ text: string }], the property possibly missing. *)
Definition text_of (t : option string) : value :=
  match t with
  | None => VUndefined
  | Some s => VStr s
  end.

(* ===================================================================== *)
(** * POST, GET, PUT, DELETE /api/journal                                 *)
(* ===================================================================== *)

(** Every handler below runs after the [auth] middleware has set
    [req.user.id], here [uid]; [now] is the reading of [Date.now()] during
    the request. A handler maps the collection to its response and the
    collection it leaves. *)

(** POST /api/journal; [oid] is the [_id] the driver gives the new
    document. *)
Definition create_route (now : Z) (uid oid : string) (b : Req.Entry) (db : store)
  : response * store :=
  if negb (field_truthy JsString.truthy (Req.title b))
     || negb (field_truthy JsString.truthy (Req.content b))
  then (respond 400 (Message "Title and content are required"), db)
  else
    let tag (pick : Req.Tags -> field (list string)) : list string :=
      match Req.tags b with
      | Val t => field_or array_truthy (pick t) []
      | _ => []
      end in
    let newEntry :=
      Schema.set_title (field_or JsString.truthy (Req.title b) "")
        {| Schema.user := uid;
           Schema.title := "";
           Schema.content := field_or JsString.truthy (Req.content b) "";
           Schema.sentimentScore :=
             Some (field_or JsNumber.truthy (Req.sentimentScore b) zero);
           Schema.mood := field_or JsString.truthy (Req.mood b) "Neutral";
           Schema.tags := {| Schema.emotions := tag Req.emotions;
                             Schema.people := tag Req.people;
                             Schema.activities := tag Req.activities |};
           Schema.createdAt := now;
           Schema.updatedAt := now |} in
    match save now oid newEntry db with
    | inl _ => (respond 500 (Message "Server error"), db)
    | inr (entry, db') => (respond 201 (Document entry), db')
    end.

(** GET /api/journal/:id *)
Definition get_route (uid id : string) (db : store) : response * store :=
  match db !! id with
  | None => (respond 404 (Message "Entry not found"), db)
  | Some entry =>
      if negb (String.eqb (Schema.user entry) uid)
      then (respond 403 (Message "Not authorized"), db)
      else (respond 200 (Document entry), db)
  end.

(** The assignments of the PUT handler to the fetched document. *)
Definition update_entry (b : Req.Entry) (entry : Schema.JournalEntry)
  : Schema.JournalEntry :=
  let entry :=
    Schema.set_title (field_or JsString.truthy (Req.title b) (Schema.title entry))
                     entry in
  let old := Schema.tags entry in
  {| Schema.user := Schema.user entry;
     Schema.title := Schema.title entry;
     Schema.content := field_or JsString.truthy (Req.content b) (Schema.content entry);
     Schema.sentimentScore :=
       match Req.sentimentScore b with
       | Absent => Schema.sentimentScore entry
       | Null => None
       | Val n => Some n
       end;
     Schema.mood := field_or JsString.truthy (Req.mood b) (Schema.mood entry);
     Schema.tags :=
       match Req.tags b with
       | Val t =>
           {| Schema.emotions :=
                field_or array_truthy (Req.emotions t) (Schema.emotions old);
              Schema.people :=
                field_or array_truthy (Req.people t) (Schema.people old);
              Schema.activities :=
                field_or array_truthy (Req.activities t) (Schema.activities old) |}
       | _ => old
       end;
     Schema.createdAt := Schema.createdAt entry;
     Schema.updatedAt := Schema.updatedAt entry |}.

(** PUT /api/journal/:id *)
Definition put_route (now : Z) (uid id : string) (b : Req.Entry) (db : store)
  : response * store :=
  match db !! id with
  | None => (respond 404 (Message "Entry not found"), db)
  | Some entry =>
      if negb (String.eqb (Schema.user entry) uid)
      then (respond 403 (Message "Not authorized"), db)
      else
        match save now id (update_entry b entry) db with
        | inl _ => (respond 500 (Message "Server error"), db)
        | inr (entry, db') => (respond 200 (Document entry), db')
        end
  end.

(** DELETE /api/journal/:id *)
Definition delete_route (uid id : string) (db : store) : response * store :=
  match db !! id with
  | None => (respond 404 (Message "Entry not found"), db)
  | Some entry =>
      if negb (String.eqb (Schema.user entry) uid)
      then (respond 403 (Message "Not authorized"), db)
      else (respond 200 (Message "Entry removed"), delete id db)
  end.

(* ===================================================================== *)
(** * src/pages/JournalEntry.tsx: the submit handler                      *)
(* ===================================================================== *)

(** [JSON.stringify] on a number: [NaN] and the infinities are written as
    [null], [-0] as [0], every other number as a literal that reads back
    to the same double. *)
Definition json_number (n : number) : field number :=
  match n with
  | S754_nan | S754_infinity _ => Null
  | S754_zero _ => Val zero
  | S754_finite _ _ _ => Val n
  end.

Module Page.

Record FormData : Type := {
  title : string;
  content : string;
  tags : Schema.Tags
}.

(** The component state one render of the page closes over; [None] is
    [null]. *)
Record State : Type := {
  formData : FormData;
  sentimentScore : option number;
  mood : option string;
  error : string;
  loading : bool
}.

Definition initial : State :=
  {| formData := {| title := ""; content := "";
                    tags := {| Schema.emotions := []; Schema.people := [];
                               Schema.activities := [] |} |};
     sentimentScore := None; mood := None; error := ""; loading := false |}.

Definition with_form (f : FormData) (st : State) : State :=
  {| formData := f; sentimentScore := sentimentScore st; mood := mood st;
     error := error st; loading := loading st |}.

Definition with_error (msg : string) (st : State) : State :=
  {| formData := formData st; sentimentScore := sentimentScore st;
     mood := mood st; error := msg; loading := false |}.

(** [setSentimentScore(response.data.score); setMood(response.data.mood)]:
    the values the next render will see. *)
Definition with_analysis (r : analysis) (st : State) : State :=
  {| formData := formData st;
     sentimentScore := match json_number (score r) with
                       | Val n => Some n
                       | _ => None
                       end;
     mood := Some (Scorer.mood r);
     error := error st; loading := loading st |}.

(** [!sentimentScore] on [number | null]. *)
Definition score_missing (s : option number) : bool :=
  match s with
  | None => true
  | Some n => negb (JsNumber.truthy n)
  end.

(** [journalData = { ...formData, sentimentScore, mood }] as [axios]
    serialises it; [sentimentScore] and [mood] are the constants of the
    render that created the handler. *)
Definition journalData (st : State) : Req.Entry :=
  let f := formData st in
  {| Req.title := Val (title f);
     Req.content := Val (content f);
     Req.sentimentScore := match sentimentScore st with
                           | None => Null
                           | Some n => json_number n
                           end;
     Req.mood := match mood st with
                 | None => Null
                 | Some m => Val m
                 end;
     Req.tags := Val {| Req.emotions := Val (Schema.emotions (tags f));
                        Req.people := Val (Schema.people (tags f));
                        Req.activities := Val (Schema.activities (tags f)) |} |}.

Definition error_message (r : response) : string :=
  match json r with
  | Message m => if JsString.truthy m then m else "Failed to save journal entry"
  | _ => "Failed to save journal entry"
  end.

Definition is_2xx (r : response) : bool := (200 <=? status r) && (status r <? 300).

(** The effect on [formData.content], once its one-second timer fires:
    contents of more than ten characters are sent to the analyzer and the
    answer is stored in the state. *)
Definition contentEffect `{Natural} (st : State) : State :=
  let text := content (formData st) in
  if 10 <? Z.of_nat (String.length (trim text)) then
    match sent (analyze_route (VStr text)) with
    | inr r =>
        match json r with
        | Analysis result => if is_2xx r then with_analysis result st else st
        | _ => st
        end
    | inl _ => st
    end
  else st.

(** [handleSubmit] run by the render holding [st], against the server
    holding [db]. [id] is the route parameter ([Some] when editing) and
    [oid] the [_id] a created document receives. The result is the state
    the setters leave for the next render and the collection the server
    is left with. *)
Definition handleSubmit `{Natural} (now : Z) (uid oid : string) (id : option string)
           (st : State) (db : store) : State * store :=
  let f := formData st in
  if negb (JsString.truthy (trim (title f)))
     || negb (JsString.truthy (trim (content f)))
  then (with_error "Title and content are required" st, db)
  else
    let analysed : string + State :=
      if score_missing (sentimentScore st) then
        match sent (analyze_route (VStr (content f))) with
        | inr r =>
            match json r with
            | Analysis result =>
                if is_2xx r then inr (with_analysis result st)
                else inl (error_message r)
            | _ => inl (error_message r)
            end
        | inl _ => inl "Failed to save journal entry"
        end
      else inr st in
    match analysed with
    | inl msg => (with_error msg st, db)
    | inr next =>
        let '(r, db') :=
          match id with
          | Some id => put_route now uid id (journalData st) db
          | None => create_route now uid oid (journalData st) db
          end in
        if is_2xx r then (with_error "" next, db')
        else (with_error (error_message r) next, db')
    end.

End Page.

(* ===================================================================== *)
(** * Sample data                                                         *)
(* ===================================================================== *)

Module Example.

Definition no_tags : Schema.Tags :=
  {| Schema.emotions := []; Schema.people := []; Schema.activities := [] |}.

(** An entry of user [u1], stored under [e1]. *)
Definition entry : Schema.JournalEntry :=
  {| Schema.user := "u1"; Schema.title := "Day one";
     Schema.content := "I feel sad"; Schema.sentimentScore := Some (of_halves (-5));
     Schema.mood := "Depressed"; Schema.tags := no_tags;
     Schema.createdAt := 0; Schema.updatedAt := 0 |}.

Definition db : store := {[ "e1" := entry ]}.

(** A PUT body that carries [sentimentScore: 0] and nothing else. *)
Definition score_only : Req.Entry :=
  {| Req.title := Absent; Req.content := Absent;
     Req.sentimentScore := Val zero; Req.mood := Absent; Req.tags := Absent |}.

(** The page right after the user typed a title and a ten-character
    content: no analysis has been stored in the state yet. *)
Definition typed : Page.State :=
  Page.with_form {| Page.title := "Day one"; Page.content := "I feel sad";
                    Page.tags := no_tags |} Page.initial.

End Example.

(* ===================================================================== *)
(** * The specification's tables                                          *)
(* ===================================================================== *)

Module Spec.

(** The seven mood labels, in the fixed order
    Very Depressed < Depressed < Sad < Neutral < Content < Happy < Ecstatic. *)
Definition labels : list string :=
  ["Very Depressed"; "Depressed"; "Sad"; "Neutral"; "Content"; "Happy";
   "Ecstatic"].

(** The threshold table of section 4.1: a row [(t, label)] reads
    "s > t gives label". *)
Definition thresholds : list (number * string) :=
  [(four, "Ecstatic"); (two, "Happy"); (half, "Content");
   (neg half, "Neutral"); (neg two, "Sad"); (neg four, "Depressed")].

(** The rows are tried top-down and the first match wins. *)
Fixpoint first_match (rows : list (number * string)) (s : number)
  : option string :=
  match rows with
  | [] => None
  | (t, label) :: rest => if gt s t then Some label else first_match rest s
  end.

Definition mood_of_score (s : number) : string :=
  match first_match thresholds s with
  | Some label => label
  | None => "Very Depressed"
  end.

Fixpoint index_of (label : string) (ls : list string) : nat :=
  match ls with
  | [] => 0
  | l :: rest => if String.eqb label l then 0 else S (index_of label rest)
  end.

(** Position of a label in the fixed order. *)
Definition rank (label : string) : nat := index_of label labels.

(** Number of token occurrences that belong to a keyword set. *)
Definition occurrences (keywords tokens : list string) : Z :=
  Z.of_nat (List.length (List.filter (includes keywords) tokens)).

(** The adjustment of section 4.1 step 3, counted in halves: one up per
    positive occurrence, one down per negative occurrence. *)
Definition adjustment_halves (tokens : list string) : Z :=
  occurrences emotionalKeywords.positive tokens
  - occurrences emotionalKeywords.negative tokens.

(** What one token occurrence moves the adjustment by, in halves. *)
Definition token_halves (token : string) : Z :=
  (if includes emotionalKeywords.positive token then 1 else 0)
  - (if includes emotionalKeywords.negative token then 1 else 0).


(** Equality of two numbers as values: [+0] and [-0] are the same number. *)
Definition same_number (x y : number) : Prop :=
  x = y \/ (is_zero x = true /\ is_zero y = true).

End Spec.

(* ===================================================================== *)
(** * GET /api/journal                                                    *)
(* ===================================================================== *)

(** The order of [sort({ createdAt: -1 })] on stored documents. *)
Definition newer_first (a b : string * Schema.JournalEntry) : Prop :=
  Schema.createdAt (snd b) <= Schema.createdAt (snd a).

#[global] Instance newer_first_dec (a b : string * Schema.JournalEntry) :
  Decision (newer_first a b).
Proof. unfold newer_first. apply _. Defined.

(** [JournalEntry.find({ user: req.user.id }).sort({ createdAt: -1 })],
    answered with status 200: the requester's documents with their [_id],
    newest first. Documents created at the same instant come in an order
    the database chooses; [merge_sort] fixes one. *)
Definition list_route (uid : string) (db : store)
  : (Z * list (string * Schema.JournalEntry)) * store :=
  ((200,
    merge_sort newer_first
      (List.filter (fun doc => String.eqb (Schema.user (snd doc)) uid)
                   (map_to_list db))),
   db).

(* ===================================================================== *)
(** * src/pages/JournalEntry.tsx: tags and deletion                       *)
(* ===================================================================== *)

Module Editor.

(** ['emotions' | 'people' | 'activities'] *)
Inductive TagType : Type := emotions | people | activities.

#[global] Instance TagType_eq_dec : EqDecision TagType.
Proof. solve_decision. Defined.

(** [tags[type]] *)
Definition get (type : TagType) (t : Schema.Tags) : list string :=
  match type with
  | emotions => Schema.emotions t
  | people => Schema.people t
  | activities => Schema.activities t
  end.

(** [{ ...tags, [type]: list }] *)
Definition set (type : TagType) (list : list string) (t : Schema.Tags)
  : Schema.Tags :=
  match type with
  | emotions =>
      {| Schema.emotions := list; Schema.people := Schema.people t;
         Schema.activities := Schema.activities t |}
  | people =>
      {| Schema.emotions := Schema.emotions t; Schema.people := list;
         Schema.activities := Schema.activities t |}
  | activities =>
      {| Schema.emotions := Schema.emotions t; Schema.people := Schema.people t;
         Schema.activities := list |}
  end.

Definition with_tags (t : Schema.Tags) (f : Page.FormData) : Page.FormData :=
  {| Page.title := Page.title f; Page.content := Page.content f;
     Page.tags := t |}.

(** The three text inputs next to the tag lists. *)
Record Inputs : Type := {
  emotionInput : string;
  personInput : string;
  activityInput : string
}.

Definition clear (type : TagType) (i : Inputs) : Inputs :=
  match type with
  | emotions =>
      {| emotionInput := ""; personInput := personInput i;
         activityInput := activityInput i |}
  | people =>
      {| emotionInput := emotionInput i; personInput := "";
         activityInput := activityInput i |}
  | activities =>
      {| emotionInput := emotionInput i; personInput := personInput i;
         activityInput := "" |}
  end.

(** [addTag(type, value)] *)
Definition addTag (type : TagType) (value : string)
           (f : Page.FormData) (i : Inputs) : Page.FormData * Inputs :=
  if negb (JsString.truthy (trim value)) then (f, i)
  else if includes (get type (Page.tags f)) (trim value) then (f, i)
  else
    (with_tags (set type (get type (Page.tags f) ++ [trim value])%list
                    (Page.tags f)) f,
     clear type i).

(** [Array.prototype.filter] with a callback that reads the element and its
    index; [i] is the index of the head of [xs]. *)
Fixpoint filter_from {A : Type} (keep : A -> nat -> bool) (i : nat)
         (xs : list A) : list A :=
  match xs with
  | [] => []
  | x :: rest =>
      if keep x i then x :: filter_from keep (S i) rest
      else filter_from keep (S i) rest
  end.

(** [removeTag(type, index)] *)
Definition removeTag (type : TagType) (index : nat) (f : Page.FormData)
  : Page.FormData :=
  with_tags
    (set type
         (filter_from (fun _ i => negb (Nat.eqb i index)) 0
                      (get type (Page.tags f)))
         (Page.tags f))
    f.

(** The lists a form can reach from the empty form: in every category the
    tags are trimmed, non-empty and pairwise different. *)
Definition tidy (xs : list string) : Prop :=
  List.NoDup xs
  /\ forall x, List.In x xs -> trim x = x /\ JsString.truthy x = true.

Definition tidy_form (f : Page.FormData) : Prop :=
  forall type, tidy (get type (Page.tags f)).

Definition loaded (st : Page.State) : Page.State :=
  {| Page.formData := Page.formData st;
     Page.sentimentScore := Page.sentimentScore st;
     Page.mood := Page.mood st; Page.error := Page.error st;
     Page.loading := false |}.

(** [handleDelete], run by the render holding [st]; [id] is the route
    parameter. *)
Definition handleDelete (uid : string) (id : option string) (st : Page.State)
           (db : store) : Page.State * store :=
  match id with
  | None => (st, db)
  | Some id =>
      let '(r, db') := delete_route uid id db in
      if Page.is_2xx r then (loaded st, db')
      else (Page.with_error "Failed to delete entry" st, db')
  end.

End Editor.

(* ===================================================================== *)
(** * The history page: filters and filter options                        *)
(* ===================================================================== *)

Module History.

(** What the page reads of [Date]: [getTime s] is
    [new Date(s).getTime()], [None] for an invalid date, and [endOfDay t]
    is the time value after [setHours(23, 59, 59)] in the local time
    zone. *)
Class DateApi : Type := {
  getTime : string -> option Z;
  endOfDay : Z -> Z
}.

(** An entry as the page receives it. *)
Record Entry : Type := {
  _id : string;
  title : string;
  content : string;
  sentimentScore : number;
  mood : string;
  tags : Schema.Tags;
  createdAt : string
}.

(** [String.prototype.includes]: [sub] occurs in [s]. *)
Fixpoint str_includes (s sub : string) : bool :=
  String.prefix sub s
  || match s with
     | EmptyString => false
     | String _ rest => str_includes rest sub
     end.

(** [a >= b] and [a <= b] on two dates; an invalid date compares false. *)
Definition date_ge (a b : option Z) : bool :=
  match a, b with
  | Some x, Some y => y <=? x
  | _, _ => false
  end.

Definition date_le (a b : option Z) : bool :=
  match a, b with
  | Some x, Some y => x <=? y
  | _, _ => false
  end.

Definition matches_search (searchTerm : string) (entry : Entry) : bool :=
  str_includes (toLowerCase (title entry)) (toLowerCase searchTerm)
  || str_includes (toLowerCase (content entry)) (toLowerCase searchTerm).

Definition has_tag (selectedTag : string) (entry : Entry) : bool :=
  includes (Schema.emotions (tags entry)) selectedTag
  || includes (Schema.people (tags entry)) selectedTag
  || includes (Schema.activities (tags entry)) selectedTag.

Definition from_date `{DateApi} (start : string) (entry : Entry) : bool :=
  date_ge (getTime (createdAt entry)) (getTime start).

Definition until_date `{DateApi} (stop : string) (entry : Entry) : bool :=
  date_le (getTime (createdAt entry)) (endOfDay <$> getTime stop).

(** The effect that computes [filteredEntries]. *)
Definition applyFilters `{DateApi} (entries : list Entry)
           (searchTerm selectedMood selectedTag start stop : string)
  : list Entry :=
  let results := entries in
  let results :=
    if JsString.truthy searchTerm
    then List.filter (matches_search searchTerm) results else results in
  let results :=
    if JsString.truthy selectedMood
    then List.filter (fun entry => String.eqb (mood entry) selectedMood) results
    else results in
  let results :=
    if JsString.truthy selectedTag
    then List.filter (has_tag selectedTag) results else results in
  let results :=
    if JsString.truthy start
    then List.filter (from_date start) results else results in
  let results :=
    if JsString.truthy stop
    then List.filter (until_date stop) results else results in
  results.

(** One predicate for all filters that are set. *)
Definition shown `{DateApi} (searchTerm selectedMood selectedTag start stop : string)
           (entry : Entry) : bool :=
  (negb (JsString.truthy searchTerm) || matches_search searchTerm entry)
  && (negb (JsString.truthy selectedMood) || String.eqb (mood entry) selectedMood)
  && (negb (JsString.truthy selectedTag) || has_tag selectedTag entry)
  && (negb (JsString.truthy start) || from_date start entry)
  && (negb (JsString.truthy stop) || until_date stop entry).

(** [[...new Set(xs)]]: the elements in the order of their first
    occurrence; [seen] holds the elements already in the set. *)
Fixpoint set_from (seen xs : list string) : list string :=
  match xs with
  | [] => []
  | x :: rest =>
      if includes seen x then set_from seen rest
      else x :: set_from (x :: seen) rest
  end.

Definition moodOptions (entries : list Entry) : list string :=
  List.filter JsString.truthy (set_from [] (List.map mood entries)).

Definition allTags (entries : list Entry) : list string :=
  fold_left (fun (tags : list string) entry =>
               (tags ++ Schema.emotions (History.tags entry)
                     ++ Schema.people (History.tags entry)
                     ++ Schema.activities (History.tags entry))%list)
            entries [].

Definition tagOptions (entries : list Entry) : list string :=
  List.filter JsString.truthy (set_from [] (allTags entries)).

(** A [Date] for which no string is a date, and two entries, to run the
    filters on. *)
Definition no_dates : DateApi :=
  {| getTime := fun _ => None; endOfDay := fun t => t |}.

Definition two_entries : list Entry :=
  [{| _id := "e2"; title := "Day two"; content := "So HAPPY today";
      sentimentScore := of_Z 3; mood := "Happy";
      tags := {| Schema.emotions := ["joy"]; Schema.people := [];
                 Schema.activities := ["run"] |};
      createdAt := "2024-05-02T08:00:00.000Z" |};
   {| _id := "e1"; title := "Day one"; content := "I feel sad";
      sentimentScore := of_halves (-5); mood := "Depressed";
      tags := {| Schema.emotions := []; Schema.people := ["Sam"];
                 Schema.activities := [] |};
      createdAt := "2024-05-01T08:00:00.000Z" |}].

End History.

(* ===================================================================== *)
(** * The mood pie chart: colours                                         *)
(* ===================================================================== *)

Module MoodSummary.

Definition COLORS : list (string * string) :=
  [("Happy", "#50C878"); ("Content", "#82ca9d"); ("Neutral", "#8884d8");
   ("Sad", "#8998df"); ("Depressed", "#6970c5"); ("Anxious", "#ffc658");
   ("Angry", "#ff8042"); ("Grateful", "#a879e6")].

Definition DEFAULT_COLOR : string := "#aaa".

(** The property names every object literal inherits. *)
Definition inherited : list string :=
  ["constructor"; "hasOwnProperty"; "isPrototypeOf"; "propertyIsEnumerable";
   "toLocaleString"; "toString"; "valueOf"; "__proto__"; "__defineGetter__";
   "__defineSetter__"; "__lookupGetter__"; "__lookupSetter__"].

(** What [fill] receives: a colour string, or for an inherited name the
    truthy object found under it. *)
Inductive fill : Type :=
| Colour (hex : string)
| Inherited (name : string).

(** [COLORS[entry.name] || DEFAULT_COLOR] *)
Definition cell_fill (name : string) : fill :=
  match List.find (fun row => String.eqb name (fst row)) COLORS with
  | Some row => Colour (snd row)
  | None =>
      if includes inherited name then Inherited name else Colour DEFAULT_COLOR
  end.

End MoodSummary.

(* ===================================================================== *)
(** * The natural package: the analyzer the scorer is built on            *)
(* ===================================================================== *)

Module NaturalLib.

Definition one : number := Eval vm_compute in of_Z 1.

Definition mul (x y : number) : number := SFmul prec emax x y.  (* x * y *)
Definition div (x y : number) : number := SFdiv prec emax x y.  (* x / y *)

(** What [new natural.SentimentAnalyzer('English', natural.PorterStemmer,
    'afinn')] holds. [vocabulary w] is [this.vocabulary[w]], [None] when
    that is [undefined]; [stem] is [PorterStemmer.stem]; [negations] is the
    list of negation words of the language. The package is a dependency of
    the repository and not part of it: the fields stand for its data, and
    [getSentiment] below follows its method of that name. *)
Record SentimentAnalyzer : Type := {
  vocabulary : string -> option number;
  stem : string -> string;
  negations : list string
}.

(** The callback of [words.forEach] in [getSentiment], on the pair of the
    running [score] and the [negator]: a negation word turns the negator to
    -1 for the rest of the text; a word of the vocabulary, as it is or
    stemmed, adds its value times the negator; any other word changes
    nothing. *)
Definition step (a : SentimentAnalyzer) (state : number * number)
           (token : string) : number * number :=
  let '(score, negator) := state in
  let lowerCased := toLowerCase token in
  if includes (negations a) lowerCased then (score, neg one)
  else
    match vocabulary a lowerCased with
    | Some v => (add score (mul negator v), negator)
    | None =>
        match vocabulary a (stem a lowerCased) with
        | Some v => (add score (mul negator v), negator)
        | None => (score, negator)
        end
    end.

(** The running score and negator after all words. *)
Definition total (a : SentimentAnalyzer) (words : list string)
  : number * number :=
  fold_left (step a) words (zero, one).

(** [getSentiment(words)]: the running score divided by [words.length]. *)
Definition getSentiment (a : SentimentAnalyzer) (words : list string) : number :=
  div (fst (total a words)) (of_Z (Z.of_nat (List.length words))).


(** The two objects of the scorer: the word tokenizer, which splits at
    every run of characters that are no letters, digits or underscores and
    keeps no empty token, and the analyzer. *)
Definition package (a : SentimentAnalyzer) : Natural :=
  {| tokenize := SpecLexicon.word_tokenize; Scorer.getSentiment := getSentiment a |}.

(** An analyzer with a handful of words, to run the scorer on. *)
Definition small : SentimentAnalyzer :=
  {| vocabulary := SpecLexicon.polarity SpecLexicon.afinn_sample;
     stem := fun w => w;
     negations := ["not"; "no"; "never"] |}.

End NaturalLib.

(* ===================================================================== *)
(** * The scorer with the state of the two objects made explicit          *)
(* ===================================================================== *)

Module Process.

(** The module-level objects [tokenizer] and [analyzer] together with all
    they hold, as a state [S] that each method call receives and
    returns. *)
Class Objects (S : Type) : Type := {
  tokenize : string -> S -> list string * S;
  getSentiment : list string -> S -> number * S
}.

(** [analyzeSentiment(text)] on a string, started in state [s]. Besides the
    two calls it reads only [text] and the keyword lists it builds
    itself. *)
Definition analyzeSentiment {S : Type} `{Objects S} (text : string) (s : S)
  : analysis * S :=
  let '(tokens, s1) := tokenize (toLowerCase text) s in
  let '(score, s2) := getSentiment tokens s1 in
  let adjustment := keyword_adjustment tokens in
  let finalScore := add score adjustment in
  ({| score := finalScore; mood := determineMood finalScore |}, s2).

(** The lexicons stay as they are: no method call changes the state. *)
Definition unchanging {S : Type} `{Objects S} : Prop :=
  (forall text s, snd (tokenize text s) = s)
  /\ (forall words s, snd (getSentiment words s) = s).

(** The two methods as functions, read off at state [s]. *)
Definition at_state {S : Type} `{Objects S} (s : S) : Natural :=
  {| Scorer.tokenize := fun text => fst (tokenize text s);
     Scorer.getSentiment := fun words => fst (getSentiment words s) |}.

(** Objects that hold a lexicon and only read it. *)
Definition reading : Objects (list (string * number)) :=
  {| tokenize := fun text s => (SpecLexicon.word_tokenize text, s);
     getSentiment := fun words s => (SpecLexicon.lexicon_score s words, s) |}.

(** Objects whose analyzer forgets its lexicon after each call. *)
Definition forgetting : Objects (list (string * number)) :=
  {| tokenize := fun text s => (SpecLexicon.word_tokenize text, s);
     getSentiment := fun words s => (SpecLexicon.lexicon_score s words, []) |}.

End Process.

(* ===================================================================== *)
(** * findById and ids that are no ObjectId                               *)
(* ===================================================================== *)





(* ===================================================================== *)
(** * Properties of number comparison                                     *)
(* ===================================================================== *)

Section Order.

Local Ltac cmp_cases :=
  repeat match goal with
    | |- context [Z.compare ?a ?b] =>
        destruct (Z.compare_spec a b); subst; simpl
    | H : context [Z.compare ?a ?b] |- _ =>
        destruct (Z.compare_spec a b); subst; simpl in H
    | |- context [Pos.compare_cont Eq ?a ?b] =>
        change (Pos.compare_cont Eq a b) with (Pos.compare a b);
        destruct (Pos.compare_spec a b); subst; simpl
    | H : context [Pos.compare_cont Eq ?a ?b] |- _ =>
        change (Pos.compare_cont Eq a b) with (Pos.compare a b) in H;
        destruct (Pos.compare_spec a b); subst; simpl in H
    end;
  try congruence; try lia.

(** [c < x] and [x <= y] give [c < y], for all numbers: [SFcompare] orders
    the non-NaN values by sign, exponent and mantissa. *)
Lemma gt_le_trans (c x y : number) :
  gt x c = true -> le x y = true -> gt y c = true.
Proof.
  unfold gt, le, SFltb, SFleb.
  destruct c as [sc|sc| |sc mc ec], x as [sx|sx| |sx mx ex],
           y as [sy|sy| |sy my ey];
    simpl; try congruence;
    repeat match goal with s : bool |- _ => destruct s end;
    simpl; try congruence; intros H1 H2; cmp_cases.
Qed.

Lemma gt_nan (c : number) : gt S754_nan c = false.
Proof. unfold gt, SFltb. destruct c; reflexivity. Qed.

Lemma add_zero_r (x : number) :
  x <> S754_zero true -> add x zero = x.
Proof. destruct x as [[|]| | |]; simpl; congruence. Qed.

Lemma add_zero_same (x : number) : Spec.same_number (add x zero) x.
Proof.
  destruct x as [[|]|[|]| |s m e]; simpl;
    first [ left; reflexivity | right; split; reflexivity ].
Qed.

End Order.

(* ===================================================================== *)
(** * Exact arithmetic on halves                                          *)
(* ===================================================================== *)

Section Exact.

Lemma iter_pos_nat {A} (f : A -> A) (n : positive) (x : A) :
  SpecFloat.iter_pos f n x = Nat.iter (Pos.to_nat n) f x.
Proof.
  revert x. induction n as [n IH|n IH|]; intros x; cbn [SpecFloat.iter_pos].
  - rewrite !IH, Pos2Nat.inj_xI, <- Nat.iter_add, <- Nat.iter_succ_r.
    f_equal. lia.
  - rewrite !IH, Pos2Nat.inj_xO, <- Nat.iter_add. f_equal. lia.
  - reflexivity.
Qed.

Lemma pos_iter_nat {A} (f : A -> A) (n : positive) (x : A) :
  Pos.iter f x n = Nat.iter (Pos.to_nat n) f x.
Proof. apply Pos2Nat.inj_iter. Qed.

Lemma shift_value (n : nat) (q : positive) :
  Zpos (Nat.iter n xO q) = Zpos q * 2 ^ Z.of_nat n.
Proof.
  induction n as [|n IH].
  - simpl. lia.
  - rewrite Nat2Z.inj_succ, Z.pow_succ_r by lia.
    simpl Nat.iter. rewrite Pos2Z.inj_xO, IH. lia.
Qed.

Lemma shift_digits (n : nat) (q : positive) :
  Zpos (digits2_pos (Nat.iter n xO q)) = Zpos (digits2_pos q) + Z.of_nat n.
Proof.
  induction n as [|n IH].
  - simpl. lia.
  - simpl Nat.iter. simpl digits2_pos. rewrite Pos2Z.inj_succ, IH. lia.
Qed.

Lemma shr_exact (n : nat) (q : positive) :
  Nat.iter n shr_1 (Build_shr_record (Zpos (Nat.iter n xO q)) false false)
  = Build_shr_record (Zpos q) false false.
Proof.
  induction n as [|n IH].
  - reflexivity.
  - rewrite Nat.iter_succ_r. simpl. exact IH.
Qed.

(** A positive is determined by its value as a shifted mantissa. *)
Lemma shifted_eq (m q : positive) (j : Z) :
  0 <= j -> Zpos m = Zpos q * 2 ^ j -> m = Nat.iter (Z.to_nat j) xO q.
Proof.
  intros Hj Hm. apply Pos2Z.inj. rewrite shift_value, Z2Nat.id by lia. exact Hm.
Qed.

Lemma digits_bounds (p : positive) :
  2 ^ (Zpos (digits2_pos p) - 1) <= Zpos p < 2 ^ Zpos (digits2_pos p).
Proof.
  induction p as [p IH|p IH|]; cbn [digits2_pos].
  - change (Zpos p~1) with (2 * Zpos p + 1).
    rewrite Pos2Z.inj_succ.
    replace (Z.succ (Zpos (digits2_pos p)) - 1)
      with (Z.succ (Zpos (digits2_pos p) - 1)) by lia.
    rewrite !Z.pow_succ_r by lia. lia.
  - change (Zpos p~0) with (2 * Zpos p).
    rewrite Pos2Z.inj_succ.
    replace (Z.succ (Zpos (digits2_pos p)) - 1)
      with (Z.succ (Zpos (digits2_pos p) - 1)) by lia.
    rewrite !Z.pow_succ_r by lia. lia.
  - simpl. lia.
Qed.

Lemma digits_le (p : positive) (n : Z) :
  0 <= n -> Zpos p < 2 ^ n -> Zpos (digits2_pos p) <= n.
Proof.
  intros Hn Hp. destruct (Z_le_gt_dec (Zpos (digits2_pos p)) n) as [|Hgt]; [assumption|].
  pose proof (digits_bounds p) as [Hlo _].
  assert (2 ^ n <= 2 ^ (Zpos (digits2_pos p) - 1)) by (apply Z.pow_le_mono_r; lia).
  lia.
Qed.

(** Rounding a value that a 53-bit mantissa [q] at exponent [t] holds
    exactly returns that mantissa and exponent, whether the input is
    given with more digits than fit (trailing zeros) or with fewer. *)
Lemma binary_round_exact (s : bool) (m q : positive) (e t : Z) :
  Zpos (digits2_pos q) = 53 ->
  -1074 <= t <= 971 ->
  (e <= t /\ Zpos m = Zpos q * 2 ^ (t - e))
  \/ (t <= e /\ Zpos q = Zpos m * 2 ^ (e - t)) ->
  binary_round prec emax s m e = S754_finite s q t.
Proof.
  intros Hq Ht [[He Hm]|[He Hm]].
  - apply shifted_eq in Hm; [|lia]. subst m.
    unfold binary_round. rewrite shift_digits, Hq.
    assert (Hf : fexp prec emax (53 + Z.of_nat (Z.to_nat (t - e)) + e) = t).
    { unfold fexp, emin, prec, emax. rewrite Z2Nat.id by lia. lia. }
    rewrite Hf. unfold shl_align.
    destruct (t - e) as [|j|j] eqn:Hj; try lia.
    + assert (e = t) by lia. subst e. simpl Z.to_nat. simpl Nat.iter.
      unfold binary_round_aux, shr_fexp. cbn [Zdigits2 shr_record_of_loc].
      rewrite Hq.
      assert (Hf0 : fexp prec emax (53 + t) - t = 0) by (unfold fexp, emin, prec, emax; lia).
      rewrite Hf0. cbn [shr shr_m loc_of_shr_record round_nearest_even Zdigits2 shr_record_of_loc].
      rewrite Hq, Hf0. cbn [shr shr_m].
      destruct (Z.leb_spec t (emax - prec)); unfold emax, prec in *; [reflexivity|lia].
    + unfold binary_round_aux, shr_fexp. cbn [Zdigits2 shr_record_of_loc].
      rewrite shift_digits, Hq.
      assert (Hf1 : fexp prec emax (53 + Z.of_nat (Z.to_nat (Zpos j)) + e) - e = Zpos j).
      { unfold fexp, emin, prec, emax. rewrite Z2Nat.id by lia. lia. }
      rewrite Hf1. cbn [shr]. rewrite iter_pos_nat.
      replace (Pos.to_nat j) with (Z.to_nat (Zpos j)) by reflexivity.
      rewrite shr_exact.
      cbn [shr_m loc_of_shr_record round_nearest_even Zdigits2 shr_record_of_loc].
      rewrite Hq.
      replace (e + Zpos j) with t by lia.
      assert (Hf0 : fexp prec emax (53 + t) - t = 0) by (unfold fexp, emin, prec, emax; lia).
      rewrite Hf0. cbn [shr shr_m].
      destruct (Z.leb_spec t (emax - prec)); unfold emax, prec in *; [reflexivity|lia].
  - assert (Hq' := Hm). apply shifted_eq in Hq'; [|lia].
    unfold binary_round.
    assert (Hd : Zpos (digits2_pos m) = 53 - (e - t)).
    { rewrite Hq' in Hq. rewrite shift_digits, Z2Nat.id in Hq by lia. lia. }
    rewrite Hd.
    assert (Hf : fexp prec emax (53 - (e - t) + e) = t) by (unfold fexp, emin, prec, emax; lia).
    rewrite Hf. unfold shl_align.
    destruct (t - e) as [|j|j] eqn:Hj; try lia.
    + assert (e = t) by lia. subst e. rewrite Z.sub_diag in Hq'. simpl in Hq'. subst q.
      unfold binary_round_aux, shr_fexp. cbn [Zdigits2 shr_record_of_loc].
      rewrite Hq.
      assert (Hf0 : fexp prec emax (53 + t) - t = 0) by (unfold fexp, emin, prec, emax; lia).
      rewrite Hf0. cbn [shr shr_m loc_of_shr_record round_nearest_even Zdigits2 shr_record_of_loc].
      rewrite Hq, Hf0. cbn [shr shr_m].
      destruct (Z.leb_spec t (emax - prec)); unfold emax, prec in *; [reflexivity|lia].
    + rewrite pos_iter_nat.
      replace (Pos.to_nat j) with (Z.to_nat (e - t)) by (replace (e - t) with (Zpos j) by lia; reflexivity).
      rewrite <- Hq'.
      unfold binary_round_aux, shr_fexp. cbn [Zdigits2 shr_record_of_loc].
      rewrite Hq.
      assert (Hf0 : fexp prec emax (53 + t) - t = 0) by (unfold fexp, emin, prec, emax; lia).
      rewrite Hf0. cbn [shr shr_m loc_of_shr_record round_nearest_even Zdigits2 shr_record_of_loc].
      rewrite Hq, Hf0. cbn [shr shr_m].
      destruct (Z.leb_spec t (emax - prec)); unfold emax, prec in *; [reflexivity|lia].
Qed.

Lemma halves_repr_exists (k : Z) :
  k <> 0 -> Z.abs k < 2 ^ 53 -> exists q t, halves_repr k q t.
Proof.
  intros Hk Hlt.
  set (p := Z.to_pos (Z.abs k)).
  assert (Hp : Zpos p = Z.abs k) by (unfold p; rewrite Z2Pos.id; lia).
  assert (Hd : Zpos (digits2_pos p) <= 53) by (apply digits_le; lia).
  pose proof (Pos2Z.is_pos (digits2_pos p)) as Hd0.
  exists (Nat.iter (Z.to_nat (53 - Zpos (digits2_pos p))) xO p),
         (Zpos (digits2_pos p) - 54).
  unfold halves_repr. rewrite shift_digits, shift_value, Z2Nat.id by lia.
  repeat split; try lia.
  rewrite Hp. f_equal. f_equal. lia.
Qed.

Lemma of_halves_repr (k : Z) (q : positive) (t : Z) :
  k <> 0 -> halves_repr k q t ->
  of_halves k = S754_finite (k <? 0) q t.
Proof.
  intros Hk (Hq & Ht & Hv).
  unfold of_halves, of_scaled, binary_normalize.
  destruct k as [|p|p]; [congruence| |]; simpl Z.ltb;
    apply binary_round_exact; try assumption; try lia;
    right; (split; [lia|]); rewrite Hv; simpl Z.abs; f_equal; f_equal; lia.
Qed.

(** The integer [k * 2^52] at exponent [-53] normalises to [k / 2]. *)
Lemma normalize_halves (k : Z) :
  Z.abs k < 2 ^ 53 ->
  binary_normalize prec emax (k * 2 ^ 52) (-53) false = of_halves k.
Proof.
  intros Hlt. destruct (Z.eq_dec k 0) as [->|Hk]; [reflexivity|].
  destruct (halves_repr_exists k Hk Hlt) as (q & t & Hr).
  rewrite (of_halves_repr k q t Hk Hr).
  destruct Hr as (Hq & Ht & Hv).
  assert (Hv' : Z.abs k * 2 ^ 52 = Zpos q * 2 ^ (t - -53)).
  { rewrite Hv, <- Z.mul_assoc, <- Z.pow_add_r by lia. f_equal. f_equal. lia. }
  unfold binary_normalize.
  destruct (k * 2 ^ 52) as [|m|m] eqn:Hm.
  - lia.
  - assert (0 < k) by lia.
    replace (k <? 0) with false by (symmetry; apply Z.ltb_ge; lia).
    apply binary_round_exact; first [assumption | lia].
  - assert (k < 0) by lia.
    replace (k <? 0) with true by (symmetry; apply Z.ltb_lt; lia).
    apply binary_round_exact; first [assumption | lia].
Qed.

Lemma shl_align_value (m : positive) (ex ez : Z) :
  ez <= ex -> Zpos (fst (shl_align m ex ez)) = Zpos m * 2 ^ (ex - ez).
Proof.
  intros Hle. unfold shl_align.
  destruct (ez - ex) as [|j|j] eqn:Hj; try lia; cbn [fst].
  - replace (ex - ez) with 0 by lia. lia.
  - rewrite pos_iter_nat, shift_value, positive_nat_Z. f_equal. f_equal. lia.
Qed.

(** Adding or subtracting 0.5 is exact on the halves below 2^52. *)
Lemma halves_step (k : Z) :
  Z.abs k < 2 ^ 53 - 1 ->
  add (of_halves k) half = of_halves (k + 1)
  /\ sub (of_halves k) half = of_halves (k - 1).
Proof.
  intros Hlt. destruct (Z.eq_dec k 0) as [->|Hk]; [split; reflexivity|].
  destruct (halves_repr_exists k Hk ltac:(lia)) as (q & t & Hr).
  rewrite (of_halves_repr k q t Hk Hr).
  destruct Hr as (Hq & Ht & Hv).
  assert (Hal : cond_Zopp (k <? 0) (Zpos (fst (shl_align q t (-53)))) = k * 2 ^ 52).
  { rewrite shl_align_value by lia. rewrite Hv, <- Z.mul_assoc, <- Z.pow_add_r by lia.
    replace (-1 - t + (t - -53)) with 52 by lia.
    destruct (Z.ltb_spec k 0); simpl cond_Zopp; lia. }
  unfold add, sub, half, SFadd, SFsub.
  replace (Z.min t (-53)) with (-53) by lia.
  rewrite Hal.
  change (cond_Zopp false (Zpos (fst (shl_align 4503599627370496 (-53) (-53)))))
    with (2 ^ 52).
  split.
  - replace (k * 2 ^ 52 + 2 ^ 52) with ((k + 1) * 2 ^ 52) by lia.
    apply normalize_halves. lia.
  - replace (k * 2 ^ 52 - 2 ^ 52) with ((k - 1) * 2 ^ 52) by lia.
    apply normalize_halves. lia.
Qed.

End Exact.

(* ===================================================================== *)
(** * The scorer                                                          *)
(* ===================================================================== *)

Section ScorerFacts.

Import emotionalKeywords.

Lemma includes_true (xs : list string) (x : string) :
  includes xs x = true <-> List.In x xs.
Proof.
  unfold includes. rewrite existsb_exists. split.
  - intros (y & Hy & Heq). apply String.eqb_eq in Heq. now subst.
  - intros Hin. exists x. split; [assumption|apply String.eqb_refl].
Qed.

(** No token belongs to both keyword lists. *)
Lemma keywords_disjoint (token : string) :
  includes positive token = true -> includes negative token = false.
Proof.
  rewrite includes_true. unfold positive. cbn [List.In].
  intros Hin.
  repeat (destruct Hin as [<-|Hin]; [reflexivity|]).
  destruct Hin.
Qed.

Lemma occurrences_cons (kw : list string) (t : string) (ts : list string) :
  Spec.occurrences kw (t :: ts)
  = (if includes kw t then 1 else 0) + Spec.occurrences kw ts.
Proof.
  unfold Spec.occurrences. cbn [List.filter].
  destruct (includes kw t); cbn [List.length]; lia.
Qed.

Lemma occurrences_bounds (kw ts : list string) :
  0 <= Spec.occurrences kw ts <= Z.of_nat (List.length ts).
Proof.
  induction ts as [|t ts IH].
  - unfold Spec.occurrences. simpl. lia.
  - rewrite occurrences_cons. cbn [List.length].
    destruct (includes kw t); lia.
Qed.

Lemma adjustment_halves_cons (t : string) (ts : list string) :
  Spec.adjustment_halves (t :: ts) = Spec.token_halves t + Spec.adjustment_halves ts.
Proof.
  unfold Spec.adjustment_halves, Spec.token_halves. rewrite !occurrences_cons. lia.
Qed.

Lemma adjust_token_halves (k : Z) (token : string) :
  Z.abs k < 2 ^ 53 - 1 ->
  adjust_token (of_halves k) token = of_halves (k + Spec.token_halves token).
Proof.
  intros Hk. destruct (halves_step k Hk) as [Hadd Hsub].
  unfold adjust_token, Spec.token_halves.
  destruct (includes positive token) eqn:Hpos.
  - rewrite (keywords_disjoint token Hpos), Hadd; f_equal; lia.
  - destruct (includes negative token).
    + rewrite Hsub; f_equal; lia.
    + f_equal; lia.
Qed.

Lemma token_halves_bound (token : string) : Z.abs (Spec.token_halves token) <= 1.
Proof.
  unfold Spec.token_halves.
  destruct (includes positive token), (includes negative token); lia.
Qed.

(** The loop started at [k / 2] ends at [k / 2] plus the counted halves,
    as long as the running value stays where halves are exact. *)
Lemma fold_adjust_halves (tokens : list string) (k : Z) :
  Z.abs k + Z.of_nat (List.length tokens) < 2 ^ 53 ->
  fold_left adjust_token tokens (of_halves k)
  = of_halves (k + Spec.adjustment_halves tokens).
Proof.
  revert k. induction tokens as [|t ts IH]; intros k Hk.
  - replace (k + Spec.adjustment_halves []) with k; [reflexivity|].
    unfold Spec.adjustment_halves, Spec.occurrences. simpl. lia.
  - cbn [fold_left List.length] in *.
    pose proof (token_halves_bound t).
    rewrite adjust_token_halves by lia.
    rewrite IH by lia.
    rewrite adjustment_halves_cons; f_equal; lia.
Qed.



Lemma determineMood_table (s : number) :
  determineMood s = Spec.mood_of_score s.
Proof.
  unfold determineMood, Spec.mood_of_score, Spec.thresholds.
  cbn [Spec.first_match].
  repeat match goal with
         | |- context [gt s ?c] => destruct (gt s c)
         end; reflexivity.
Qed.

Lemma determineMood_label (s : number) : List.In (determineMood s) Spec.labels.
Proof.
  unfold determineMood, Spec.labels.
  repeat match goal with
         | |- context [gt s ?c] => destruct (gt s c)
         end; cbn [List.In]; tauto.
Qed.

End ScorerFacts.

Section ScorerClaims.

Import emotionalKeywords.

(** C1. For every text, the mood of [analyze text] is one of the seven
    labels and is the label the threshold table gives for the score of
    [analyze text], rows tried top-down with strict [>], first match
    winning; a score of exactly 2 is [Content] and a score of exactly 4 is
    [Happy]. *)
Theorem analyze_mood_threshold_table `{Natural} (text : string) :
  List.In (mood (analyzeText text)) Spec.labels
  /\ mood (analyzeText text) = Spec.mood_of_score (score (analyzeText text))
  /\ determineMood two = "Content"
  /\ determineMood four = "Happy"
  /\ @analyzeText SpecLexicon.boundary "fine"
     = {| score := two; mood := "Content" |}
  /\ @analyzeText SpecLexicon.boundary "superb"
     = {| score := four; mood := "Happy" |}.
Proof.
  unfold analyzeText. cbn [mood score].
  split; [apply determineMood_label|].
  split; [apply determineMood_table|].
  repeat split; vm_compute; reflexivity.
Qed.

(** C2. The keyword adjustment of a token sequence is +0.5 per occurrence
    of a positive keyword and -0.5 per occurrence of a negative keyword,
    summed over the occurrences; the final score is the base score plus
    the adjustment, nothing else applied; with exactly one positive and
    one negative occurrence the adjustment is 0 and the final score is the
    base score. The length bound holds for every JavaScript array. *)
Theorem keyword_adjustment_sum `{Natural} (text : string) :
  let tokens := tokenize (toLowerCase text) in
  Z.of_nat (List.length tokens) < 2 ^ 53 ->
  keyword_adjustment tokens
  = of_halves (Spec.occurrences positive tokens
               - Spec.occurrences negative tokens)
  /\ score (analyzeText text)
     = add (getSentiment tokens) (keyword_adjustment tokens)
  /\ (Spec.occurrences positive tokens = 1 ->
      Spec.occurrences negative tokens = 1 ->
      keyword_adjustment tokens = zero
      /\ Spec.same_number (score (analyzeText text)) (getSentiment tokens)).
Proof.
  intros tokens Hlen.
  assert (Hadj : keyword_adjustment tokens
                 = of_halves (Spec.adjustment_halves tokens)).
  { unfold keyword_adjustment. change zero with (of_halves 0).
    rewrite fold_adjust_halves by (simpl Z.abs; lia). reflexivity. }
  split; [exact Hadj|]. split; [reflexivity|].
  intros Hp Hn.
  assert (Hz : keyword_adjustment tokens = zero).
  { rewrite Hadj. unfold Spec.adjustment_halves. rewrite Hp, Hn. reflexivity. }
  split; [exact Hz|].
  unfold analyzeText. cbn [score]. fold tokens. rewrite Hz.
  apply add_zero_same.
Qed.

Lemma keyword_adjustment_sum_witness :
  let tokens := @tokenize SpecLexicon.sample
                  (toLowerCase "I love this, but I am sad") in
  keyword_adjustment tokens = zero
  /\ Spec.same_number
       (score (@analyzeText SpecLexicon.sample "I love this, but I am sad"))
       (@getSentiment SpecLexicon.sample tokens).
Proof.
  intros tokens.
  destruct (@keyword_adjustment_sum SpecLexicon.sample
              "I love this, but I am sad") as (_ & _ & Hone).
  - vm_compute. reflexivity.
  - apply Hone; vm_compute; reflexivity.
Defined.

(** The result on the empty string follows the analyzer: where the base
    score of an empty token sequence is [NaN], the mood is the last row of
    the table. *)
Lemma analyze_empty_string_nan_base `{Natural} :
  tokenize "" = [] ->
  getSentiment [] = S754_nan ->
  analyzeSentiment (VStr "")
  = inr {| score := S754_nan; mood := "Very Depressed" |}.
Proof.
  intros Htok Hbase. unfold analyzeSentiment, analyzeText.
  cbn [toLowerCase]. rewrite Htok, Hbase. reflexivity.
Qed.

(** C3 as stated fails: run on the empty string, the scorer does not
    return score 0 and mood [Neutral]. *)
Lemma analyze_empty_string_not_neutral :
  @analyzeSentiment (NaturalLib.package NaturalLib.small) (VStr "")
  <> inr {| score := zero; mood := "Neutral" |}.
Proof. vm_compute. discriminate. Qed.

(** C3, amended. The empty string has no token and its keyword adjustment
    is 0, but the analyzer divides its running score by the number of
    tokens, so the base score of the empty sequence is 0 / 0, which is
    [NaN]: the scorer returns score [NaN] and mood [Very Depressed],
    whatever the vocabulary. POST /journal/analyze answers 400 for the
    empty string and does not run the scorer on it. *)
Theorem analyze_empty_string_nan (a : NaturalLib.SentimentAnalyzer) :
  @tokenize (NaturalLib.package a) (toLowerCase "") = []
  /\ keyword_adjustment (@tokenize (NaturalLib.package a) (toLowerCase "")) = zero
  /\ @getSentiment (NaturalLib.package a) [] = S754_nan
  /\ @analyzeSentiment (NaturalLib.package a) (VStr "")
     = inr {| score := S754_nan; mood := "Very Depressed" |}
  /\ @analyze_route (NaturalLib.package a) (VStr "")
     = {| sent := inr (respond 400 (Message "Text is required"));
          scorer_calls := [] |}.
Proof.
  split; [reflexivity|]. split; [reflexivity|]. split; [reflexivity|].
  split; [|reflexivity].
  apply (@analyze_empty_string_nan_base (NaturalLib.package a)); reflexivity.
Qed.

(** A text of punctuation only passes the check of the route and is scored
    like the empty string. *)
Lemma analyze_route_no_token (a : NaturalLib.SentimentAnalyzer) :
  sent (@analyze_route (NaturalLib.package a) (VStr "!!!"))
  = inr (respond 200
           (Analysis {| score := S754_nan; mood := "Very Depressed" |})).
Proof. reflexivity. Qed.

(** C5. With the state of the tokenizer and the analyzer made explicit:
    as long as their methods leave that state (the lexicons) unchanged, two
    invocations of the scorer on the same text, one after the other, return
    the same score and mood and leave the state as it was; the scorer keeps
    nothing of its own between calls. The mood of a result depends on its
    score alone: any invocation, on any text and in any state, that
    returns the same score returns the same mood. *)
Theorem analyze_twice_identical {S : Type} `{Process.Objects S}
        (text : string) (s : S) :
  Process.unchanging ->
  let first := Process.analyzeSentiment text s in
  let second := Process.analyzeSentiment text (snd first) in
  fst second = fst first
  /\ snd second = s
  /\ fst first = @analyzeText (Process.at_state s) text
  /\ (forall text' s',
        score (fst (Process.analyzeSentiment text' s')) = score (fst first) ->
        mood (fst (Process.analyzeSentiment text' s')) = mood (fst first)).
Proof.
  intros [Htok Hsent] first second.
  assert (Hrun : forall t s0,
             Process.analyzeSentiment t s0
             = (@analyzeText (Process.at_state s0) t, s0)).
  { intros t s0. unfold Process.analyzeSentiment, analyzeText.
    cbn [Scorer.tokenize Scorer.getSentiment Process.at_state].
    pose proof (Htok (toLowerCase t) s0) as H1.
    destruct (Process.tokenize (toLowerCase t) s0) as [tokens s1].
    cbn [fst snd] in *. subst s1.
    pose proof (Hsent tokens s0) as H2.
    destruct (Process.getSentiment tokens s0) as [base s2].
    cbn [fst snd] in *. now subst s2. }
  unfold second, first. rewrite !Hrun. cbn [fst snd]. rewrite ?Hrun.
  cbn [fst snd]. repeat split.
  intros text' s'. rewrite Hrun. cbn [fst].
  unfold analyzeText. cbn [score mood]. now intros ->.
Qed.

Lemma process_reading_unchanging : @Process.unchanging _ Process.reading.
Proof. split; reflexivity. Defined.

Lemma analyze_twice_identical_witness :
  fst (@Process.analyzeSentiment _ Process.reading "so sad"
         (snd (@Process.analyzeSentiment _ Process.reading "so sad"
                 SpecLexicon.afinn_sample)))
  = fst (@Process.analyzeSentiment _ Process.reading "so sad"
           SpecLexicon.afinn_sample).
Proof.
  apply (@analyze_twice_identical _ Process.reading "so sad"
           SpecLexicon.afinn_sample).
  exact process_reading_unchanging.
Defined.

(** The condition on the objects is needed: with an analyzer that changes
    its lexicon, the second invocation on the same text returns another
    result. *)
Lemma analyze_twice_differs_when_lexicon_changes :
  fst (@Process.analyzeSentiment _ Process.forgetting "so sad"
         (snd (@Process.analyzeSentiment _ Process.forgetting "so sad"
                 SpecLexicon.afinn_sample)))
  <> fst (@Process.analyzeSentiment _ Process.forgetting "so sad"
            SpecLexicon.afinn_sample).
Proof. vm_compute. discriminate. Qed.

(** Equal scores give equal moods, whatever produced the scores. *)
Lemma mood_depends_on_score (N1 N2 : Natural) (text1 text2 : string) :
  score (@analyzeText N1 text1) = score (@analyzeText N2 text2) ->
  mood (@analyzeText N1 text1) = mood (@analyzeText N2 text2).
Proof. unfold analyzeText. cbn [score mood]. now intros ->. Qed.





(** C8. The score-to-mood mapping is monotone for the fixed label order:
    [s1 <= s2] gives a label for [s1] that is not above the label for
    [s2]. *)
Theorem determineMood_monotone (s1 s2 : number) :
  le s1 s2 = true ->
  (Spec.rank (determineMood s1) <= Spec.rank (determineMood s2))%nat.
Proof.
  intros Hle.
  assert (Hup : forall c, gt s1 c = true -> gt s2 c = true)
    by (intros c Hc; exact (gt_le_trans c s1 s2 Hc Hle)).
  unfold determineMood.
  repeat match goal with
         | |- context [gt s1 ?c] =>
             let E := fresh "E" in
             destruct (gt s1 c) eqn:E; [rewrite (Hup c E)|]
         end;
  repeat match goal with
         | |- context [gt s2 ?c] => destruct (gt s2 c)
         end;
  vm_compute; lia.
Qed.

Lemma determineMood_monotone_witness :
  (Spec.rank (determineMood (of_Z 1)) <= Spec.rank (determineMood (of_Z 3)))%nat.
Proof.
  apply (determineMood_monotone (of_Z 1) (of_Z 3)). reflexivity.
Defined.

End ScorerClaims.

(* ===================================================================== *)
(** * Strings                                                             *)
(* ===================================================================== *)

Section StringFacts.

Lemma trimEnd_cons (c : ascii) (rest : string) :
  trimEnd (String c rest)
  = match trimEnd rest with
    | EmptyString => if is_space c then EmptyString else String c EmptyString
    | kept => String c kept
    end.
Proof. reflexivity. Qed.

Lemma trimEnd_idempotent (s : string) : trimEnd (trimEnd s) = trimEnd s.
Proof.
  induction s as [|c rest IH]; [reflexivity|].
  rewrite trimEnd_cons. destruct (trimEnd rest) as [|c' kept] eqn:Hrest.
  - destruct (is_space c) eqn:Hc; [reflexivity|].
    rewrite trimEnd_cons. cbn [trimEnd]. now rewrite Hc.
  - rewrite trimEnd_cons, IH. reflexivity.
Qed.

Lemma trimStart_clean (s : string) : starts_clean (trimStart s).
Proof.
  induction s as [|c rest IH]; [exact I|].
  cbn [trimStart]. destruct (is_space c) eqn:Hc; [exact IH|exact Hc].
Qed.

Lemma trimStart_fixed (s : string) : starts_clean s -> trimStart s = s.
Proof. destruct s as [|c rest]; [reflexivity|]. cbn. now intros ->. Qed.

Lemma trimEnd_clean (s : string) : starts_clean s -> starts_clean (trimEnd s).
Proof.
  destruct s as [|c rest]; [trivial|]. rewrite trimEnd_cons.
  cbn [starts_clean]. intros Hc.
  destruct (trimEnd rest); [rewrite Hc|]; exact Hc.
Qed.

Lemma trim_idempotent (s : string) : trim (trim s) = trim s.
Proof.
  unfold trim.
  rewrite (trimStart_fixed (trimEnd (trimStart s)))
    by (apply trimEnd_clean, trimStart_clean).
  apply trimEnd_idempotent.
Qed.

Lemma trimStart_truthy (s : string) :
  JsString.truthy (trimStart s) = true -> JsString.truthy s = true.
Proof. destruct s; [discriminate|reflexivity]. Qed.

Lemma trimEnd_truthy (s : string) :
  JsString.truthy (trimEnd s) = true -> JsString.truthy s = true.
Proof. destruct s; [discriminate|reflexivity]. Qed.

Lemma trim_truthy (s : string) :
  JsString.truthy (trim s) = true -> JsString.truthy s = true.
Proof. intros H. now apply trimStart_truthy, trimEnd_truthy. Qed.

End StringFacts.

(* ===================================================================== *)
(** * The routes                                                          *)
(* ===================================================================== *)

Section RouteFacts.

Lemma owner_mismatch (entry : Schema.JournalEntry) (uid : string) :
  Schema.user entry <> uid -> negb (String.eqb (Schema.user entry) uid) = true.
Proof. intros Hne. apply negb_true_iff, String.eqb_neq, Hne. Qed.

Lemma owner_match (entry : Schema.JournalEntry) :
  negb (String.eqb (Schema.user entry) (Schema.user entry)) = false.
Proof. now rewrite String.eqb_refl. Qed.

Lemma save_ok (now : Z) (id : string) (e : Schema.JournalEntry) (db : store) :
  Schema.validate e = None ->
  save now id e db
  = inr (Schema.pre_save now e, <[id := Schema.pre_save now e]> db).
Proof. intros Hv. unfold save. now rewrite Hv. Qed.

Lemma save_rejected (now : Z) (id : string) (e : Schema.JournalEntry)
      (db : store) (err : exn) :
  Schema.validate e = Some err -> save now id e db = inl err.
Proof. intros Hv. unfold save. now rewrite Hv. Qed.

Lemma pre_save_well_formed (now : Z) (e : Schema.JournalEntry) :
  Schema.validate e = None -> trim (Schema.title e) = Schema.title e ->
  Schema.well_formed (Schema.pre_save now e).
Proof. intros Hv Ht. split; assumption. Qed.

Lemma store_ok_insert (db : store) (id : string) (e : Schema.JournalEntry) :
  store_ok db -> Schema.well_formed e -> store_ok (<[id := e]> db).
Proof.
  intros Hdb He id' e'. rewrite lookup_insert.
  case_decide; [intros [= <-]; exact He|apply Hdb].
Qed.

Lemma store_ok_delete (db : store) (id : string) :
  store_ok db -> store_ok (delete id db).
Proof.
  intros Hdb id' e'. rewrite lookup_delete.
  case_decide; [discriminate|apply Hdb].
Qed.

Lemma update_entry_title_trimmed (b : Req.Entry) (e : Schema.JournalEntry) :
  trim (Schema.title (update_entry b e)) = Schema.title (update_entry b e).
Proof. unfold update_entry. cbn. apply trim_idempotent. Qed.

(** The collection invariant is kept by every route. *)
Lemma routes_keep_store_ok (now : Z) (uid oid id : string) (b : Req.Entry)
      (db : store) :
  store_ok db ->
  store_ok (snd (create_route now uid oid b db))
  /\ store_ok (snd (get_route uid id db))
  /\ store_ok (snd (put_route now uid id b db))
  /\ store_ok (snd (delete_route uid id db)).
Proof.
  intros Hdb. split; [|split; [|split]].
  - unfold create_route.
    destruct (_ || _); [exact Hdb|].
    match goal with |- context [save now oid ?e db] => set (doc := e) end.
    unfold save. destruct (Schema.validate doc) eqn:Hv; [exact Hdb|].
    cbn [snd]. apply store_ok_insert; [exact Hdb|].
    apply pre_save_well_formed; [exact Hv|]. unfold doc. cbn.
    apply trim_idempotent.
  - unfold get_route. destruct (db !! id); [|exact Hdb].
    destruct (negb _); exact Hdb.
  - unfold put_route. destruct (db !! id) as [e|]; [|exact Hdb].
    destruct (negb _); [exact Hdb|].
    unfold save. destruct (Schema.validate (update_entry b e)) eqn:Hv;
      [exact Hdb|].
    cbn [snd]. apply store_ok_insert; [exact Hdb|].
    apply pre_save_well_formed; [exact Hv|apply update_entry_title_trimmed].
  - unfold delete_route. destruct (db !! id); [|exact Hdb].
    destruct (negb _); [exact Hdb|]. apply store_ok_delete, Hdb.
Qed.

End RouteFacts.

Section RouteClaims.

(** C4. POST /journal/analyze on a body of the documented shape answers
    400 with [{ message: "Text is required" }] when [text] is missing or
    the empty string, without calling the scorer, and in every other case
    answers 200 with the scorer's result on that text. *)
Theorem analyze_route_text_required `{Natural} (text : option string) :
  analyze_route (text_of text)
  = match text with
    | None | Some EmptyString =>
        {| sent := inr (respond 400 (Message "Text is required"));
           scorer_calls := [] |}
    | Some s =>
        {| sent := inr (respond 200 (Analysis (analyzeText s)));
           scorer_calls := [VStr s] |}
    end.
Proof. destruct text as [[|c s]|]; reflexivity. Qed.

(** Outside the documented shape: a falsy [text] of another type is also
    answered 400, and a truthy one that is no string makes the scorer
    throw. *)
Lemma analyze_route_other_types `{Natural} :
  sent (analyze_route (VNum zero))
  = inr (respond 400 (Message "Text is required"))
  /\ sent (analyze_route VNull)
     = inr (respond 400 (Message "Text is required"))
  /\ sent (analyze_route (VNum four))
     = inl (TypeError "text.toLowerCase is not a function").
Proof. repeat split. Qed.

(** C9. GET, PUT and DELETE of an existing entry whose [user] is not the
    requester answer 403 with [{ message: "Not authorized" }] and leave
    the collection as it was. *)
Theorem foreign_entry_not_authorized (now : Z) (uid id : string)
        (b : Req.Entry) (db : store) (entry : Schema.JournalEntry) :
  db !! id = Some entry ->
  Schema.user entry <> uid ->
  get_route uid id db = (respond 403 (Message "Not authorized"), db)
  /\ put_route now uid id b db = (respond 403 (Message "Not authorized"), db)
  /\ delete_route uid id db = (respond 403 (Message "Not authorized"), db).
Proof.
  intros Hfind Hother. unfold get_route, put_route, delete_route.
  rewrite Hfind, (owner_mismatch entry uid Hother). repeat split.
Qed.

Lemma foreign_entry_not_authorized_witness :
  get_route "u2" "e1" Example.db
  = (respond 403 (Message "Not authorized"), Example.db)
  /\ put_route 7 "u2" "e1" Example.score_only Example.db
     = (respond 403 (Message "Not authorized"), Example.db)
  /\ delete_route "u2" "e1" Example.db
     = (respond 403 (Message "Not authorized"), Example.db).
Proof.
  apply (foreign_entry_not_authorized 7 "u2" "e1" Example.score_only
           Example.db Example.entry).
  - reflexivity.
  - discriminate.
Defined.

(** C10 as stated fails: a PUT whose body mentions no field still changes
    the stored entry, the pre-save hook resetting [updatedAt]. *)
Lemma put_empty_body_changes_updatedAt :
  ~ (exists e',
        snd (put_route 7 "u1" "e1" Req.empty Example.db) !! "e1" = Some e'
        /\ Schema.updatedAt e' = Schema.updatedAt Example.entry).
Proof.
  intros (e' & Hfind & Hsame).
  vm_compute in Hfind. injection Hfind as <-. discriminate Hsame.
Qed.

(** C10, amended. On PUT of an owned entry: a falsy [title], [content] or
    [mood] leaves the stored field as it was; an absent [sentimentScore]
    leaves it as it was and a number, 0 included, replaces it when the
    update is saved; a falsy tag category inside a supplied [tags] keeps
    the old list and without [tags] all three lists stay; [user] and
    [createdAt] stay; [updatedAt] becomes the time of the save. When
    validation rejects the update the answer is 500 and the stored entry
    is unchanged. *)
Theorem put_keeps_unsupplied_fields (now : Z) (uid id : string)
        (b : Req.Entry) (db : store) (e : Schema.JournalEntry) :
  db !! id = Some e ->
  Schema.user e = uid ->
  trim (Schema.title e) = Schema.title e ->
  let result := put_route now uid id b db in
  exists e',
    snd result !! id = Some e'
    /\ (status (fst result) = 200
        \/ (status (fst result) = 500 /\ snd result = db))
    /\ (field_truthy JsString.truthy (Req.title b) = false ->
        Schema.title e' = Schema.title e)
    /\ (field_truthy JsString.truthy (Req.content b) = false ->
        Schema.content e' = Schema.content e)
    /\ (field_truthy JsString.truthy (Req.mood b) = false ->
        Schema.mood e' = Schema.mood e)
    /\ (Req.sentimentScore b = Absent ->
        Schema.sentimentScore e' = Schema.sentimentScore e)
    /\ (forall n, Req.sentimentScore b = Val n ->
                  status (fst result) = 200 ->
                  Schema.sentimentScore e' = Some n)
    /\ (forall t, Req.tags b = Val t ->
          (field_truthy array_truthy (Req.emotions t) = false ->
           Schema.emotions (Schema.tags e') = Schema.emotions (Schema.tags e))
          /\ (field_truthy array_truthy (Req.people t) = false ->
              Schema.people (Schema.tags e') = Schema.people (Schema.tags e))
          /\ (field_truthy array_truthy (Req.activities t) = false ->
              Schema.activities (Schema.tags e')
              = Schema.activities (Schema.tags e)))
    /\ ((forall t, Req.tags b <> Val t) -> Schema.tags e' = Schema.tags e)
    /\ Schema.user e' = Schema.user e
    /\ Schema.createdAt e' = Schema.createdAt e
    /\ (status (fst result) = 200 -> Schema.updatedAt e' = now).
Proof.
  intros Hfind Hown Htrim result. subst result uid.
  unfold put_route. rewrite Hfind, owner_match. unfold save.
  destruct (Schema.validate (update_entry b e)) as [err|] eqn:Hv.
  - exists e. cbn [fst snd status respond]. split; [exact Hfind|].
    split; [right; now split|].
    repeat split; try reflexivity; discriminate.
  - exists (Schema.pre_save now (update_entry b e)).
    cbn [fst snd status respond]. split; [apply lookup_insert_eq|].
    split; [now left|].
    destruct b as [bt bc bs bm bg]. unfold update_entry, Schema.pre_save.
    cbn [Req.title Req.content Req.sentimentScore Req.mood Req.tags
         Schema.title Schema.content Schema.sentimentScore Schema.mood
         Schema.tags Schema.user Schema.createdAt Schema.updatedAt
         Schema.set_title].
    repeat match goal with |- _ /\ _ => split end.
    + destruct bt as [| |t]; cbn [field_truthy field_or]; intros Hf;
        try rewrite Hf; exact Htrim.
    + destruct bc as [| |c]; cbn [field_truthy field_or]; intros Hf;
        try rewrite Hf; reflexivity.
    + destruct bm as [| |m]; cbn [field_truthy field_or]; intros Hf;
        try rewrite Hf; reflexivity.
    + now intros ->.
    + now intros n -> _.
    + intros t ->.
      cbn [Schema.emotions Schema.people Schema.activities].
      repeat split.
      * destruct (Req.emotions t); cbn; try reflexivity. discriminate.
      * destruct (Req.people t); cbn; try reflexivity. discriminate.
      * destruct (Req.activities t); cbn; try reflexivity. discriminate.
    + intros Hnone. destruct bg as [| |t]; try reflexivity.
      now destruct (Hnone t).
    + reflexivity.
    + reflexivity.
    + reflexivity.
Qed.

Lemma put_keeps_unsupplied_fields_witness :
  exists e',
    snd (put_route 7 "u1" "e1" Example.score_only Example.db) !! "e1" = Some e'
    /\ Schema.title e' = "Day one"
    /\ Schema.mood e' = "Depressed"
    /\ Schema.sentimentScore e' = Some zero
    /\ Schema.updatedAt e' = 7.
Proof.
  destruct (put_keeps_unsupplied_fields 7 "u1" "e1" Example.score_only
              Example.db Example.entry)
    as (e' & Hfind & _ & Ht & _ & Hm & _ & Hs & _ & _ & _ & _ & Hu);
    [reflexivity|reflexivity|reflexivity|].
  exists e'. split; [exact Hfind|].
  split; [apply Ht; reflexivity|].
  split; [apply Hm; reflexivity|].
  split; [apply (Hs zero); reflexivity|].
  apply Hu. reflexivity.
Defined.

(** The response of a PUT on an owned entry is decided by validation. *)
Lemma put_status (now : Z) (id : string) (b : Req.Entry) (db : store)
      (e : Schema.JournalEntry) :
  db !! id = Some e ->
  status (fst (put_route now (Schema.user e) id b db))
  = match Schema.validate (update_entry b e) with
    | None => 200
    | Some _ => 500
    end.
Proof.
  intros Hfind. unfold put_route. rewrite Hfind, owner_match. unfold save.
  now destruct (Schema.validate (update_entry b e)).
Qed.

End RouteClaims.

Section SubmitClaims.

(** The server stores the [sentimentScore] and the [mood] of the body as
    they are, its defaults standing in for falsy values only. *)
Lemma create_stores_body_values (now : Z) (uid oid : string)
      (b : Req.Entry) (db : store) (e : Schema.JournalEntry) :
  snd (create_route now uid oid b db) !! oid = Some e ->
  db !! oid = None ->
  Schema.sentimentScore e
  = Some (field_or JsNumber.truthy (Req.sentimentScore b) zero)
  /\ Schema.mood e = field_or JsString.truthy (Req.mood b) "Neutral".
Proof.
  unfold create_route. destruct (_ || _); cbn [snd].
  - intros Hfind Hfresh. congruence.
  - match goal with |- context [save now oid ?doc db] => set (d := doc) end.
    unfold save. destruct (Schema.validate d); cbn [snd].
    + intros Hfind Hfresh. congruence.
    + rewrite lookup_insert_eq. intros [= <-] _. split; reflexivity.
Qed.

(** A page that holds no analysis yet submits [null] for both fields,
    whatever the analysis it requests on the way returns, and the server
    stores its defaults. *)
Lemma submit_without_analysis `{Natural} (now : Z) (uid oid : string)
      (f : Page.FormData) (db : store) :
  JsString.truthy (trim (Page.title f)) = true ->
  JsString.truthy (trim (Page.content f)) = true ->
  let st := Page.with_form f Page.initial in
  exists e,
    snd (Page.handleSubmit now uid oid None st db) !! oid = Some e
    /\ Schema.sentimentScore e = Some zero
    /\ Schema.mood e = "Neutral"
    /\ Page.mood (fst (Page.handleSubmit now uid oid None st db))
       = Some (mood (analyzeText (Page.content f))).
Proof.
  intros Ht Hc st.
  pose proof (trim_truthy _ Ht) as Ht'. pose proof (trim_truthy _ Hc) as Hc'.
  unfold Page.handleSubmit. subst st.
  cbn [Page.formData Page.with_form Page.sentimentScore Page.initial
       Page.score_missing].
  rewrite Ht, Hc. cbn [negb orb].
  unfold analyze_route. cbn [value_truthy]. rewrite Hc'.
  cbn [negb analyzeSentiment sent json respond Page.is_2xx status].
  cbn [Z.leb Z.ltb Z.compare Pos.compare Pos.compare_cont andb].
  unfold create_route, Page.journalData.
  cbn [Page.formData Page.with_form Page.sentimentScore Page.mood
       Page.initial Req.title Req.content Req.sentimentScore Req.mood
       Req.tags field_truthy field_or].
  rewrite Ht', Hc'. cbn [negb orb].
  unfold save, Schema.validate.
  cbn [Schema.set_title Schema.title Schema.content Schema.sentimentScore
       Schema.mood].
  rewrite Ht, Hc'. cbn.
  eexists. split; [apply lookup_insert_eq|].
  repeat split.
Qed.

(** C7 at the failing input. A new entry titled "Day one" with content
    "I feel sad" is submitted from a page that holds no analysis (the
    content is too short for the debounced effect to request one): the
    stored entry has [sentimentScore] 0 and [mood] "Neutral", while the
    scorer's output for that content, which the handler did request and
    leaves in the state of the next render, is -2.5 and "Depressed". *)
Theorem submit_new_entry_drops_analysis :
  let run := @Page.handleSubmit SpecLexicon.sample 7 "u1" "e2" None
               Example.typed Example.db in
  Schema.sentimentScore <$> snd run !! "e2" = Some (Some zero)
  /\ Schema.mood <$> snd run !! "e2" = Some "Neutral"
  /\ @analyzeText SpecLexicon.sample "I feel sad"
     = {| score := of_halves (-5); mood := "Depressed" |}
  /\ Page.sentimentScore (fst run) = Some (of_halves (-5))
  /\ Page.mood (fst run) = Some "Depressed"
  /\ @Page.contentEffect SpecLexicon.sample Example.typed = Example.typed.
Proof. vm_compute. repeat split. Qed.

End SubmitClaims.

(* ===================================================================== *)
(** * The journal routes, beyond the claims                               *)
(* ===================================================================== *)

Section RouteExtras.

Lemma create_keeps_other (now : Z) (uid oid : string) (b : Req.Entry)
      (db : store) (id' : string) :
  id' <> oid -> snd (create_route now uid oid b db) !! id' = db !! id'.
Proof.
  intros Hne. unfold create_route. destruct (_ || _); [reflexivity|].
  match goal with |- context [save now oid ?doc db] => set (d := doc) end.
  unfold save. destruct (Schema.validate d); cbn [snd]; [reflexivity|].
  now apply lookup_insert_ne.
Qed.

Lemma put_keeps_other (now : Z) (uid id : string) (b : Req.Entry)
      (db : store) (id' : string) :
  id' <> id -> snd (put_route now uid id b db) !! id' = db !! id'.
Proof.
  intros Hne. unfold put_route. destruct (db !! id) as [e|]; [|reflexivity].
  destruct (negb _); [reflexivity|].
  unfold save. destruct (Schema.validate _); cbn [snd]; [reflexivity|].
  now apply lookup_insert_ne.
Qed.

Lemma delete_keeps_other (uid id : string) (db : store) (id' : string) :
  id' <> id -> snd (delete_route uid id db) !! id' = db !! id'.
Proof.
  intros Hne. unfold delete_route. destruct (db !! id) as [e|]; [|reflexivity].
  destruct (negb _); cbn [snd]; [reflexivity|]. now apply lookup_delete_ne.
Qed.

Lemma put_foreign_same (now : Z) (uid id : string) (b : Req.Entry)
      (db : store) (e : Schema.JournalEntry) :
  db !! id = Some e -> Schema.user e <> uid ->
  snd (put_route now uid id b db) = db.
Proof.
  intros Hfind Hother. unfold put_route.
  now rewrite Hfind, (owner_mismatch e uid Hother).
Qed.

Lemma delete_foreign_same (uid id : string) (db : store)
      (e : Schema.JournalEntry) :
  db !! id = Some e -> Schema.user e <> uid ->
  snd (delete_route uid id db) = db.
Proof.
  intros Hfind Hother. unfold delete_route.
  now rewrite Hfind, (owner_mismatch e uid Hother).
Qed.

Lemma get_same (uid id : string) (db : store) : snd (get_route uid id db) = db.
Proof.
  unfold get_route. destruct (db !! id); [|reflexivity].
  now destruct (negb _).
Qed.

(** X1. Whatever a user asks of the four entry routes, an entry that
    belongs to somebody else is still stored afterwards, unchanged. The id
    given to a created document is one the collection does not hold. *)
Theorem routes_leave_foreign_entries (now : Z) (uid oid id : string)
        (b : Req.Entry) (db : store) (id' : string)
        (e' : Schema.JournalEntry) :
  db !! oid = None ->
  db !! id' = Some e' ->
  Schema.user e' <> uid ->
  snd (create_route now uid oid b db) !! id' = Some e'
  /\ snd (get_route uid id db) !! id' = Some e'
  /\ snd (put_route now uid id b db) !! id' = Some e'
  /\ snd (delete_route uid id db) !! id' = Some e'.
Proof.
  intros Hfresh Hfind Hother. split; [|split; [|split]].
  - rewrite create_keeps_other; [exact Hfind|]. congruence.
  - now rewrite get_same.
  - destruct (decide (id' = id)) as [->|Hne].
    + now rewrite (put_foreign_same now uid id b db e' Hfind Hother).
    + now rewrite put_keeps_other.
  - destruct (decide (id' = id)) as [->|Hne].
    + now rewrite (delete_foreign_same uid id db e' Hfind Hother).
    + now rewrite delete_keeps_other.
Qed.

Lemma routes_leave_foreign_entries_witness :
  snd (create_route 7 "u2" "e2" Example.score_only Example.db) !! "e1"
  = Some Example.entry
  /\ snd (get_route "u2" "e1" Example.db) !! "e1" = Some Example.entry
  /\ snd (put_route 7 "u2" "e1" Example.score_only Example.db) !! "e1"
     = Some Example.entry
  /\ snd (delete_route "u2" "e1" Example.db) !! "e1" = Some Example.entry.
Proof.
  apply (routes_leave_foreign_entries 7 "u2" "e2" "e1" Example.score_only
           Example.db "e1" Example.entry).
  - reflexivity.
  - reflexivity.
  - discriminate.
Defined.

(** X2. POST /api/journal has three outcomes. A falsy title or content is
    answered 400 and nothing is stored. A title of whitespace only passes
    that check, is trimmed to the empty string, fails validation and is
    answered 500, nothing stored. Otherwise the answer is 201 with the
    document stored under the new id: owned by the requester, title
    trimmed, content as sent. *)
Theorem create_route_outcomes (now : Z) (uid oid : string) (b : Req.Entry)
        (db : store) :
  (field_truthy JsString.truthy (Req.title b) = false
   \/ field_truthy JsString.truthy (Req.content b) = false ->
   create_route now uid oid b db
   = (respond 400 (Message "Title and content are required"), db))
  /\ (forall t,
        Req.title b = Val t -> JsString.truthy t = true ->
        JsString.truthy (trim t) = false ->
        field_truthy JsString.truthy (Req.content b) = true ->
        create_route now uid oid b db
        = (respond 500 (Message "Server error"), db))
  /\ (forall t c,
        Req.title b = Val t -> JsString.truthy (trim t) = true ->
        Req.content b = Val c -> JsString.truthy c = true ->
        exists e,
          create_route now uid oid b db
          = (respond 201 (Document e), <[oid := e]> db)
          /\ Schema.user e = uid /\ Schema.title e = trim t
          /\ Schema.content e = c).
Proof.
  split; [|split].
  - intros Hfalsy. unfold create_route.
    destruct Hfalsy as [-> | ->]; cbn [negb orb]; [reflexivity|].
    now rewrite orb_true_r.
  - intros t Ht Htruthy Hblank Hc. unfold create_route.
    rewrite Hc, Ht. cbn [field_truthy field_or]. rewrite Htruthy.
    cbn [negb orb]. unfold save, Schema.validate.
    cbn [Schema.set_title Schema.title]. now rewrite Hblank.
  - intros t c Ht Htrim Hc Hcontent.
    pose proof (trim_truthy t Htrim) as Htruthy.
    unfold create_route. rewrite Ht, Hc. cbn [field_truthy field_or].
    rewrite Htruthy, Hcontent. cbn [negb orb].
    unfold save, Schema.validate.
    cbn [Schema.set_title Schema.title Schema.content Schema.sentimentScore
         Schema.mood].
    rewrite Htrim, Hcontent. cbn [negb].
    assert (Hmood : JsString.truthy
                      (field_or JsString.truthy (Req.mood b) "Neutral") = true).
    { destruct (Req.mood b) as [| |m]; cbn [field_or]; try reflexivity.
      destruct (JsString.truthy m) eqn:Hm; [exact Hm|reflexivity]. }
    rewrite Hmood. cbn [negb bool_decide].
    eexists. split; [reflexivity|]. repeat split.
Qed.

Lemma create_route_outcomes_witness :
  create_route 7 "u1" "e2"
    {| Req.title := Val "   "; Req.content := Val "I feel sad";
       Req.sentimentScore := Absent; Req.mood := Absent; Req.tags := Absent |}
    Example.db
  = (respond 500 (Message "Server error"), Example.db).
Proof.
  match goal with
  | |- create_route ?now ?uid ?oid ?b ?db = _ =>
      destruct (create_route_outcomes now uid oid b db) as (_ & Hblank & _)
  end.
  apply (Hblank "   "); reflexivity.
Defined.

(** X3. An entry that was just created is what its owner reads back: after
    a 201, GET on the new id answers 200 with the document of the 201
    response and changes nothing. *)
Theorem create_then_get (now : Z) (uid oid : string) (b : Req.Entry)
        (db : store) :
  status (fst (create_route now uid oid b db)) = 201 ->
  get_route uid oid (snd (create_route now uid oid b db))
  = (respond 200 (json (fst (create_route now uid oid b db))),
     snd (create_route now uid oid b db)).
Proof.
  unfold create_route. destruct (_ || _); [discriminate|].
  match goal with |- context [save now oid ?doc db] => set (d := doc) end.
  unfold save. destruct (Schema.validate d); [discriminate|].
  cbn [fst snd json respond status]. intros _.
  unfold get_route. rewrite lookup_insert_eq.
  cbn [Schema.pre_save Schema.user]. unfold d.
  cbn [Schema.set_title Schema.user]. now rewrite String.eqb_refl.
Qed.

Lemma create_then_get_witness :
  status (fst (get_route "u1" "e2"
                 (snd (create_route 7 "u1" "e2"
                         (Page.journalData Example.typed) Example.db))))
  = 200.
Proof.
  rewrite (create_then_get 7 "u1" "e2" (Page.journalData Example.typed)
             Example.db); reflexivity.
Defined.



(** X5. DELETE by the owner answers 200 with
    [{ message: "Entry removed" }]; the entry is gone, so that a GET or a
    second DELETE of it answers 404, and every other entry is as before. *)
Theorem delete_owned_entry (uid id : string) (db : store)
        (e : Schema.JournalEntry) :
  db !! id = Some e ->
  Schema.user e = uid ->
  let after := snd (delete_route uid id db) in
  fst (delete_route uid id db) = respond 200 (Message "Entry removed")
  /\ after !! id = None
  /\ (forall id', id' <> id -> after !! id' = db !! id')
  /\ fst (get_route uid id after) = respond 404 (Message "Entry not found")
  /\ delete_route uid id after
     = (respond 404 (Message "Entry not found"), after).
Proof.
  intros Hfind <- after.
  assert (Hafter : after = delete id db).
  { unfold after, delete_route. now rewrite Hfind, owner_match. }
  assert (Hgone : after !! id = None) by (rewrite Hafter; apply lookup_delete_eq).
  split; [unfold delete_route; now rewrite Hfind, owner_match|].
  split; [exact Hgone|].
  split; [intros id' Hne; rewrite Hafter; now apply lookup_delete_ne|].
  unfold get_route, delete_route. now rewrite Hgone.
Qed.

Lemma delete_owned_entry_witness :
  snd (delete_route "u1" "e1" Example.db) !! "e1" = None.
Proof.
  apply (delete_owned_entry "u1" "e1" Example.db Example.entry); reflexivity.
Defined.

(** X6. Creating an entry and deleting it again gives back the collection
    one started from. *)
Theorem create_then_delete (now : Z) (uid oid : string) (b : Req.Entry)
        (db : store) :
  db !! oid = None ->
  status (fst (create_route now uid oid b db)) = 201 ->
  delete_route uid oid (snd (create_route now uid oid b db))
  = (respond 200 (Message "Entry removed"), db).
Proof.
  intros Hfresh. unfold create_route. destruct (_ || _); [discriminate|].
  match goal with |- context [save now oid ?doc db] => set (d := doc) end.
  unfold save. destruct (Schema.validate d); [discriminate|].
  cbn [fst snd status respond]. intros _.
  unfold delete_route. rewrite lookup_insert_eq.
  cbn [Schema.pre_save Schema.user]. unfold d.
  cbn [Schema.set_title Schema.user]. rewrite String.eqb_refl. cbn [negb].
  now rewrite delete_insert_id.
Qed.

Lemma create_then_delete_witness :
  delete_route "u1" "e2"
    (snd (create_route 7 "u1" "e2" (Page.journalData Example.typed) Example.db))
  = (respond 200 (Message "Entry removed"), Example.db).
Proof.
  apply (create_then_delete 7 "u1" "e2" (Page.journalData Example.typed)
           Example.db); reflexivity.
Defined.

End RouteExtras.

Section PutAndListExtras.

Lemma field_or_again (t : string -> bool) (f : field string) (d : string) :
  field_or t f (field_or t f d) = field_or t f d.
Proof. destruct f as [| |a]; cbn; try reflexivity. now destruct (t a). Qed.

Lemma field_or_list_again (f : field (list string)) (d : list string) :
  field_or array_truthy f (field_or array_truthy f d) = field_or array_truthy f d.
Proof. now destruct f. Qed.

(** Updating twice with one body is updating once, whatever the clock
    wrote in between. *)
Lemma update_entry_again (now : Z) (b : Req.Entry) (e : Schema.JournalEntry) :
  Schema.pre_save now (update_entry b (Schema.pre_save now (update_entry b e)))
  = Schema.pre_save now (update_entry b e).
Proof.
  destruct b as [bt bc bs bm bg]. unfold update_entry, Schema.pre_save.
  cbn [Req.title Req.content Req.sentimentScore Req.mood Req.tags
       Schema.title Schema.content Schema.sentimentScore Schema.mood
       Schema.tags Schema.user Schema.createdAt Schema.updatedAt
       Schema.set_title].
  f_equal.
  - destruct bt as [| |t]; cbn [field_or]; try apply trim_idempotent.
    destruct (JsString.truthy t); [reflexivity|apply trim_idempotent].
  - apply field_or_again.
  - now destruct bs.
  - apply field_or_again.
  - destruct bg as [| |t]; try reflexivity.
    cbn [Schema.emotions Schema.people Schema.activities].
    now rewrite !field_or_list_again.
Qed.

Lemma validate_pre_save (now : Z) (e : Schema.JournalEntry) :
  Schema.validate (Schema.pre_save now e) = Schema.validate e.
Proof. reflexivity. Qed.

(** X7. PUT is idempotent: sending the same body again, the clock reading
    the same, gives the same answer and leaves the collection as the first
    PUT left it. *)
Theorem put_route_idempotent (now : Z) (uid id : string) (b : Req.Entry)
        (db : store) (e : Schema.JournalEntry) :
  db !! id = Some e ->
  Schema.user e = uid ->
  put_route now uid id b (snd (put_route now uid id b db))
  = put_route now uid id b db.
Proof.
  intros Hfind <-. unfold put_route at 2 3. rewrite Hfind, owner_match.
  unfold save. destruct (Schema.validate (update_entry b e)) as [err|] eqn:Hv.
  - cbn [snd]. unfold put_route. rewrite Hfind, owner_match.
    unfold save. now rewrite Hv.
  - cbn [snd]. unfold put_route. rewrite lookup_insert_eq.
    replace (Schema.user (Schema.pre_save now (update_entry b e)))
      with (Schema.user e) by (now destruct b).
    rewrite owner_match. unfold save.
    assert (Hv2 : Schema.validate
                    (update_entry b (Schema.pre_save now (update_entry b e)))
                  = None).
    { rewrite <- (validate_pre_save now), update_entry_again.
      now rewrite validate_pre_save. }
    rewrite Hv2, update_entry_again, insert_insert_eq. reflexivity.
Qed.

Lemma put_route_idempotent_witness :
  put_route 7 "u1" "e1" Example.score_only
    (snd (put_route 7 "u1" "e1" Example.score_only Example.db))
  = put_route 7 "u1" "e1" Example.score_only Example.db.
Proof.
  apply (put_route_idempotent 7 "u1" "e1" Example.score_only Example.db
           Example.entry); reflexivity.
Defined.

(** X8. On an owned entry that is stored well-formed, PUT is refused
    exactly in two cases: the body carries [sentimentScore: null], or it
    carries a title of whitespace only. It then answers 500 and changes
    nothing; in every other case it answers 200. *)
Theorem put_route_refusals (now : Z) (uid id : string) (b : Req.Entry)
        (db : store) (e : Schema.JournalEntry) :
  db !! id = Some e ->
  Schema.user e = uid ->
  Schema.well_formed e ->
  let refused :=
    Req.sentimentScore b = Null
    \/ exists t, Req.title b = Val t /\ JsString.truthy t = true
                 /\ JsString.truthy (trim t) = false in
  (refused ->
   put_route now uid id b db = (respond 500 (Message "Server error"), db))
  /\ (~ refused -> status (fst (put_route now uid id b db)) = 200).
Proof.
  intros Hfind <- [Hvalid Htrim] refused.
  unfold Schema.validate in Hvalid.
  destruct (JsString.truthy (Schema.title e)) eqn:Het; [|discriminate].
  destruct (JsString.truthy (Schema.content e)) eqn:Hec; [|discriminate].
  destruct (Schema.sentimentScore e) as [n0|] eqn:Hes; [|discriminate].
  destruct (JsString.truthy (Schema.mood e)) eqn:Hem; [|discriminate].
  clear Hvalid.
  assert (Hc : JsString.truthy
                 (field_or JsString.truthy (Req.content b) (Schema.content e))
               = true).
  { destruct (Req.content b) as [| |c]; cbn [field_or]; try exact Hec.
    destruct (JsString.truthy c) eqn:Hc; [exact Hc|exact Hec]. }
  assert (Hm : JsString.truthy
                 (field_or JsString.truthy (Req.mood b) (Schema.mood e))
               = true).
  { destruct (Req.mood b) as [| |m]; cbn [field_or]; try exact Hem.
    destruct (JsString.truthy m) eqn:Hm; [exact Hm|exact Hem]. }
  unfold put_route. rewrite Hfind, owner_match. unfold save, Schema.validate.
  unfold update_entry.
  cbn [Schema.title Schema.content Schema.sentimentScore Schema.mood
       Schema.set_title].
  rewrite Hc, Hm. cbn [negb].
  split.
  - intros [Hnull | (t & Ht & Htruthy & Hblank)].
    + rewrite Hnull.
      destruct (JsString.truthy (trim _)); reflexivity.
    + rewrite Ht. cbn [field_or]. rewrite Htruthy, Hblank. reflexivity.
  - intros Hok.
    assert (Htitle : JsString.truthy
                       (trim (field_or JsString.truthy (Req.title b)
                                       (Schema.title e))) = true).
    { destruct (Req.title b) as [| |t] eqn:Hbt; cbn [field_or];
        try (rewrite Htrim; exact Het).
      destruct (JsString.truthy t) eqn:Htruthy; [|rewrite Htrim; exact Het].
      destruct (JsString.truthy (trim t)) eqn:Hblank; [reflexivity|].
      exfalso. apply Hok. right. now exists t. }
    rewrite Htitle. cbn [negb].
    destruct (Req.sentimentScore b) as [| |n] eqn:Hbs.
    + rewrite Hes. reflexivity.
    + exfalso. apply Hok. now left.
    + reflexivity.
Qed.

Lemma put_route_refusals_witness :
  put_route 7 "u1" "e1"
    {| Req.title := Absent; Req.content := Absent;
       Req.sentimentScore := Null; Req.mood := Absent; Req.tags := Absent |}
    Example.db
  = (respond 500 (Message "Server error"), Example.db).
Proof.
  match goal with
  | |- put_route ?now ?uid ?id ?b ?db = _ =>
      destruct (put_route_refusals now uid id b db Example.entry)
        as [Hrefused _]
  end.
  - reflexivity.
  - reflexivity.
  - split; reflexivity.
  - apply Hrefused. left. reflexivity.
Defined.

Lemma store_ok_example : store_ok Example.db.
Proof.
  intros id e Hfind. unfold Example.db in Hfind.
  apply lookup_singleton_Some in Hfind as [_ <-]. split; reflexivity.
Defined.

(** X9, on [routes_keep_store_ok]: a collection of valid documents with
    trimmed titles stays one under every route. *)
Lemma routes_keep_store_ok_witness :
  store_ok (snd (put_route 7 "u1" "e1" Example.score_only Example.db)).
Proof.
  apply (routes_keep_store_ok 7 "u1" "e2" "e1" Example.score_only Example.db).
  exact store_ok_example.
Defined.

#[local] Instance newer_first_total : Total newer_first.
Proof. intros a b. unfold newer_first. lia. Qed.

Lemma owned_filter_spec (uid : string) (db : store) (id : string)
      (e : Schema.JournalEntry) :
  (id, e) ∈ List.filter (fun doc => String.eqb (Schema.user (snd doc)) uid)
                        (map_to_list db)
  <-> db !! id = Some e /\ Schema.user e = uid.
Proof.
  rewrite list_elem_of_In, filter_In, <- list_elem_of_In, elem_of_map_to_list.
  cbn [snd]. now rewrite String.eqb_eq.
Qed.

(** X10. GET /api/journal answers 200 with exactly the requester's
    entries, each once, newest first, and changes nothing. *)
Theorem list_route_own_entries_newest_first (uid : string) (db : store) :
  let listed := snd (fst (list_route uid db)) in
  fst (fst (list_route uid db)) = 200
  /\ snd (list_route uid db) = db
  /\ (forall id e, (id, e) ∈ listed <-> db !! id = Some e /\ Schema.user e = uid)
  /\ NoDup listed
  /\ Sorted newer_first listed.
Proof.
  intros listed. unfold listed, list_route. cbn [fst snd].
  split; [reflexivity|]. split; [reflexivity|]. split; [|split].
  - intros id e. rewrite merge_sort_Permutation. apply owned_filter_spec.
  - rewrite merge_sort_Permutation. apply NoDup_ListNoDup, List.NoDup_filter.
    apply NoDup_ListNoDup, NoDup_map_to_list.
  - apply Sorted_merge_sort. apply _.
Qed.

End PutAndListExtras.

(* ===================================================================== *)
(** * The entry page, beyond the claims                                   *)
(* ===================================================================== *)

Section EditorExtras.

Import Editor.

Lemma includes_false (xs : list string) (x : string) :
  includes xs x = false <-> ~ List.In x xs.
Proof.
  rewrite <- includes_true. destruct (includes xs x); split; congruence.
Qed.

Lemma get_set_same (type : TagType) (l : list string) (t : Schema.Tags) :
  get type (set type l t) = l.
Proof. now destruct type. Qed.

Lemma get_set_other (type type' : TagType) (l : list string) (t : Schema.Tags) :
  type' <> type -> get type' (set type l t) = get type' t.
Proof. destruct type, type'; intros Hne; try reflexivity; congruence. Qed.

Lemma set_get (type : TagType) (t : Schema.Tags) : set type (get type t) t = t.
Proof. now destruct type, t. Qed.

Lemma with_tags_same (f : Page.FormData) : with_tags (Page.tags f) f = f.
Proof. now destruct f. Qed.

Lemma tidy_snoc (xs : list string) (v : string) :
  tidy xs -> JsString.truthy (trim v) = true -> ~ List.In (trim v) xs ->
  tidy (xs ++ [trim v]).
Proof.
  intros [Hnodup Hall] Hv Hnew. split.
  - apply NoDup_ListNoDup, NoDup_app. split; [now apply NoDup_ListNoDup|].
    split; [|apply NoDup_singleton].
    intros x Hx Hin. apply list_elem_of_singleton in Hin. subst x.
    apply Hnew. now apply list_elem_of_In.
  - intros x Hx. apply in_app_or in Hx as [Hx|[<-|[]]]; [now apply Hall|].
    split; [apply trim_idempotent|exact Hv].
Qed.

(** X11. Adding tags keeps every tag list tidy: trimmed, non-empty entries
    without repetition. The lists of the other two categories are not
    touched. *)
Theorem addTag_keeps_lists_tidy (type : TagType) (value : string)
        (f : Page.FormData) (i : Inputs) :
  tidy_form f ->
  tidy_form (fst (addTag type value f i))
  /\ forall other, other <> type ->
       get other (Page.tags (fst (addTag type value f i)))
       = get other (Page.tags f).
Proof.
  intros Htidy. unfold addTag.
  destruct (JsString.truthy (trim value)) eqn:Hv; cbn [negb fst];
    [|split; [exact Htidy|reflexivity]].
  destruct (includes (get type (Page.tags f)) (trim value)) eqn:Hin; cbn [fst];
    [split; [exact Htidy|reflexivity]|].
  apply includes_false in Hin. split.
  - intros t. cbn [with_tags Page.tags].
    destruct (decide (t = type)) as [->|Hne].
    + rewrite get_set_same. now apply tidy_snoc.
    + rewrite get_set_other by exact Hne. apply Htidy.
  - intros other Hne. cbn [with_tags Page.tags]. now apply get_set_other.
Qed.

Lemma tidy_initial : tidy_form (Page.formData Page.initial).
Proof. intros []; (split; [constructor|intros x []]). Defined.

Lemma addTag_keeps_lists_tidy_witness :
  tidy_form (fst (addTag emotions "  calm " (Page.formData Page.initial)
                    {| emotionInput := "  calm "; personInput := "";
                       activityInput := "" |})).
Proof.
  apply (addTag_keeps_lists_tidy emotions "  calm "
           (Page.formData Page.initial)).
  exact tidy_initial.
Defined.

Lemma includes_snoc (xs : list string) (x : string) :
  includes (xs ++ [x]) x = true.
Proof. apply includes_true, in_or_app. right. now left. Qed.

(** X12. A tag that is already listed is not added again, also when it is
    typed with other surrounding whitespace: adding it a second time
    changes neither the form nor the inputs. *)
Theorem addTag_twice (type : TagType) (v1 v2 : string)
        (f : Page.FormData) (i i' : Inputs) :
  trim v1 = trim v2 ->
  JsString.truthy (trim v1) = true ->
  addTag type v2 (fst (addTag type v1 f i)) i' = (fst (addTag type v1 f i), i').
Proof.
  intros Heq Hv. unfold addTag at 2 3. rewrite Hv. cbn [negb].
  destruct (includes (get type (Page.tags f)) (trim v1)) eqn:Hin; cbn [fst].
  - unfold addTag. rewrite <- Heq, Hv, Hin. reflexivity.
  - unfold addTag. rewrite <- Heq, Hv. cbn [negb with_tags Page.tags].
    now rewrite get_set_same, includes_snoc.
Qed.

Lemma addTag_twice_witness :
  addTag emotions "calm  "
    (fst (addTag emotions "  calm " (Page.formData Page.initial)
            {| emotionInput := "  calm "; personInput := "";
               activityInput := "" |}))
    {| emotionInput := "calm  "; personInput := ""; activityInput := "" |}
  = (fst (addTag emotions "  calm " (Page.formData Page.initial)
            {| emotionInput := "  calm "; personInput := "";
               activityInput := "" |}),
     {| emotionInput := "calm  "; personInput := ""; activityInput := "" |}).
Proof.
  apply (addTag_twice emotions "  calm " "calm  "); reflexivity.
Defined.

Lemma filter_from_above {A : Type} (xs : list A) (index from : nat) :
  (index < from)%nat ->
  filter_from (fun _ i => negb (Nat.eqb i index)) from xs = xs.
Proof.
  revert from. induction xs as [|x rest IH]; intros from Hlt; [reflexivity|].
  cbn [filter_from].
  replace (Nat.eqb from index) with false by (symmetry; apply Nat.eqb_neq; lia).
  cbn [negb]. f_equal. apply IH. lia.
Qed.

Lemma filter_from_position {A : Type} (xs : list A) (start index : nat) :
  filter_from (fun _ i => negb (Nat.eqb i (start + index))) start xs
  = (take index xs ++ drop (S index) xs)%list.
Proof.
  revert start index. induction xs as [|x rest IH]; intros start index.
  - now destruct index.
  - cbn [filter_from]. destruct index as [|index].
    + rewrite Nat.add_0_r, Nat.eqb_refl. cbn [negb take drop app].
      rewrite drop_0. apply filter_from_above. lia.
    + replace (Nat.eqb start (start + S index)) with false
        by (symmetry; apply Nat.eqb_neq; lia).
      cbn [negb take drop app]. f_equal.
      replace (start + S index)%nat with (S start + index)%nat by lia.
      apply IH.
Qed.

Lemma filter_from_zero {A : Type} (xs : list A) (index : nat) :
  filter_from (fun _ i => negb (Nat.eqb i index)) 0 xs
  = (take index xs ++ drop (S index) xs)%list.
Proof. exact (filter_from_position xs 0 index). Qed.

(** X13. [removeTag] takes out the tag at the given position and nothing
    else: the list becomes the tags before that position followed by the
    tags after it, an index past the end changes nothing, and the other two
    categories are not touched. *)
Theorem removeTag_removes_position (type : TagType) (index : nat)
        (f : Page.FormData) :
  let before := get type (Page.tags f) in
  get type (Page.tags (removeTag type index f))
  = (take index before ++ drop (S index) before)%list
  /\ ((index < List.length before)%nat ->
      S (List.length (get type (Page.tags (removeTag type index f))))
      = List.length before)
  /\ ((List.length before <= index)%nat -> removeTag type index f = f)
  /\ forall other, other <> type ->
       get other (Page.tags (removeTag type index f))
       = get other (Page.tags f).
Proof.
  intros before.
  assert (Hlist : get type (Page.tags (removeTag type index f))
                  = (take index before ++ drop (S index) before)%list).
  { unfold removeTag. cbn [with_tags Page.tags]. rewrite get_set_same.
    apply filter_from_zero. }
  split; [exact Hlist|]. split; [|split].
  - intros Hlt. rewrite Hlist, length_app, length_take, length_drop. lia.
  - intros Hge. unfold removeTag.
    rewrite filter_from_zero.
    fold before. rewrite take_ge, drop_ge, app_nil_r by lia.
    unfold before. now rewrite set_get, with_tags_same.
  - intros other Hne. unfold removeTag. cbn [with_tags Page.tags].
    now apply get_set_other.
Qed.

Lemma removeTag_removes_position_witness :
  removeTag people 3 (Page.formData Example.typed)
  = Page.formData Example.typed.
Proof.
  apply (removeTag_removes_position people 3 (Page.formData Example.typed)).
  cbn. lia.
Defined.

(** X14. Removing the tag that was just added gives back the form: a new
    tag goes to the end of its list, and removing the last position undoes
    the addition. *)
Theorem addTag_then_removeTag (type : TagType) (value : string)
        (f : Page.FormData) (i : Inputs) :
  JsString.truthy (trim value) = true ->
  includes (get type (Page.tags f)) (trim value) = false ->
  removeTag type (List.length (get type (Page.tags f)))
            (fst (addTag type value f i))
  = f.
Proof.
  intros Hv Hnew. unfold addTag. rewrite Hv, Hnew. cbn [negb fst].
  unfold removeTag. cbn [with_tags Page.tags Page.title Page.content].
  rewrite get_set_same.
  rewrite filter_from_zero.
  rewrite take_app_length, drop_ge, app_nil_r
    by (rewrite length_app; cbn; lia).
  destruct f as [t c tg]. cbn [Page.tags Page.title Page.content].
  f_equal. now destruct type, tg.
Qed.

Lemma addTag_then_removeTag_witness :
  removeTag emotions 0
    (fst (addTag emotions "  calm " (Page.formData Page.initial)
            {| emotionInput := ""; personInput := ""; activityInput := "" |}))
  = Page.formData Page.initial.
Proof.
  apply (addTag_then_removeTag emotions "  calm " (Page.formData Page.initial));
    reflexivity.
Defined.

Lemma create_leaves_foreign (now : Z) (uid oid : string) (b : Req.Entry)
      (db : store) (id' : string) (e' : Schema.JournalEntry) :
  db !! oid = None -> db !! id' = Some e' ->
  snd (create_route now uid oid b db) !! id' = Some e'.
Proof.
  intros Hfresh Hfind. rewrite create_keeps_other; [exact Hfind|congruence].
Qed.

Lemma put_leaves_foreign (now : Z) (uid id : string) (b : Req.Entry)
      (db : store) (id' : string) (e' : Schema.JournalEntry) :
  db !! id' = Some e' -> Schema.user e' <> uid ->
  snd (put_route now uid id b db) !! id' = Some e'.
Proof.
  intros Hfind Hother. destruct (decide (id' = id)) as [->|Hne].
  - now rewrite (put_foreign_same now uid id b db e' Hfind Hother).
  - now rewrite put_keeps_other.
Qed.

Lemma delete_leaves_foreign (uid id : string) (db : store) (id' : string)
      (e' : Schema.JournalEntry) :
  db !! id' = Some e' -> Schema.user e' <> uid ->
  snd (delete_route uid id db) !! id' = Some e'.
Proof.
  intros Hfind Hother. destruct (decide (id' = id)) as [->|Hne].
  - now rewrite (delete_foreign_same uid id db e' Hfind Hother).
  - now rewrite delete_keeps_other.
Qed.

(** X15. Nothing a signed-in user does on the entry page, saving or
    deleting, changes or removes an entry of another user. *)
Theorem page_leaves_foreign_entries `{Natural} (now : Z) (uid oid : string)
        (id : option string) (st : Page.State) (db : store) (id' : string)
        (e' : Schema.JournalEntry) :
  db !! oid = None ->
  db !! id' = Some e' ->
  Schema.user e' <> uid ->
  snd (Page.handleSubmit now uid oid id st db) !! id' = Some e'
  /\ snd (handleDelete uid id st db) !! id' = Some e'.
Proof.
  intros Hfresh Hfind Hother. split.
  - unfold Page.handleSubmit.
    destruct (_ || _); [exact Hfind|].
    match goal with
    | |- context [match ?a with inl _ => _ | inr _ => _ end] => destruct a
    end; [exact Hfind|].
    destruct id as [id|].
    + pose proof (put_leaves_foreign now uid id (Page.journalData st) db id' e'
                    Hfind Hother) as Hput.
      destruct (put_route now uid id (Page.journalData st) db) as [r db'].
      now destruct (Page.is_2xx r).
    + pose proof (create_leaves_foreign now uid oid (Page.journalData st) db
                    id' e' Hfresh Hfind) as Hcreate.
      destruct (create_route now uid oid (Page.journalData st) db) as [r db'].
      now destruct (Page.is_2xx r).
  - unfold handleDelete. destruct id as [id|]; [|exact Hfind].
    pose proof (delete_leaves_foreign uid id db id' e' Hfind Hother) as Hdel.
    destruct (delete_route uid id db) as [r db'].
    now destruct (Page.is_2xx r).
Qed.

Lemma page_leaves_foreign_entries_witness :
  snd (handleDelete "u2" (Some "e1") Example.typed Example.db) !! "e1"
  = Some Example.entry.
Proof.
  apply (@page_leaves_foreign_entries SpecLexicon.sample 7 "u2" "e2"
           (Some "e1") Example.typed Example.db "e1" Example.entry).
  - reflexivity.
  - reflexivity.
  - discriminate.
Defined.

(** X16. [handleDelete] does nothing on the page of a new entry; on the
    page of an entry the user owns it removes that entry and reports no
    error; when the entry does not exist or belongs to somebody else it
    reports "Failed to delete entry" and the collection is unchanged. *)
Theorem handleDelete_outcomes (uid id : string) (st : Page.State) (db : store) :
  handleDelete uid None st db = (st, db)
  /\ (forall e, db !! id = Some e -> Schema.user e = uid ->
        handleDelete uid (Some id) st db = (loaded st, delete id db))
  /\ (db !! id = None
      \/ (exists e, db !! id = Some e /\ Schema.user e <> uid) ->
      handleDelete uid (Some id) st db
      = (Page.with_error "Failed to delete entry" st, db)).
Proof.
  split; [reflexivity|]. split.
  - intros e Hfind <-. unfold handleDelete, delete_route.
    now rewrite Hfind, owner_match.
  - intros [Hnone | (e & Hfind & Hother)]; unfold handleDelete, delete_route.
    + now rewrite Hnone.
    + now rewrite Hfind, (owner_mismatch e uid Hother).
Qed.

Lemma handleDelete_outcomes_witness :
  handleDelete "u2" (Some "e1") Example.typed Example.db
  = (Page.with_error "Failed to delete entry" Example.typed, Example.db).
Proof.
  destruct (handleDelete_outcomes "u2" "e1" Example.typed Example.db)
    as (_ & _ & Hfail).
  apply Hfail. right. exists Example.entry. split; [reflexivity|discriminate].
Defined.

Lemma determineMood_truthy (s : number) :
  JsString.truthy (determineMood s) = true.
Proof.
  unfold determineMood.
  repeat match goal with
         | |- context [gt s ?c] => destruct (gt s c)
         end; reflexivity.
Qed.

Lemma long_truthy (s : string) :
  10 < Z.of_nat (String.length s) -> JsString.truthy s = true.
Proof. destruct s; [cbn; lia|reflexivity]. Qed.

(** X17. When the content is long enough for the page to have analysed it
    and the analysis gave a finite score other than 0, saving a new entry
    stores exactly the scorer's score and mood for that content. *)
Theorem submit_after_analysis_stores_it `{Natural} (now : Z) (uid oid : string)
        (f : Page.FormData) (db : store) :
  JsString.truthy (trim (Page.title f)) = true ->
  10 < Z.of_nat (String.length (trim (Page.content f))) ->
  let result := analyzeText (Page.content f) in
  JsNumber.truthy (score result) = true ->
  json_number (score result) = Val (score result) ->
  let analysed := Page.contentEffect (Page.with_form f Page.initial) in
  exists e,
    snd (Page.handleSubmit now uid oid None analysed db) !! oid = Some e
    /\ Schema.sentimentScore e = Some (score result)
    /\ Schema.mood e = mood result.
Proof.
  intros Ht Hlen result Hscore Hfinite analysed.
  pose proof (long_truthy _ Hlen) as Hc.
  pose proof (trim_truthy _ Ht) as Ht'. pose proof (trim_truthy _ Hc) as Hc'.
  assert (Han : analysed
                = Page.with_analysis result (Page.with_form f Page.initial)).
  { unfold analysed, Page.contentEffect.
    cbn [Page.formData Page.with_form].
    destruct (Z.ltb_spec 10 (Z.of_nat (String.length (trim (Page.content f)))));
      [|lia].
    unfold analyze_route. cbn [value_truthy]. rewrite Hc'. reflexivity. }
  rewrite Han. unfold Page.handleSubmit.
  cbn [Page.formData Page.with_form Page.with_analysis Page.sentimentScore
       Page.initial].
  rewrite Ht, Hc. cbn [negb orb]. fold result. rewrite Hfinite.
  cbn [Page.score_missing]. rewrite Hscore. cbn [negb].
  unfold create_route, Page.journalData.
  cbn [Page.formData Page.with_form Page.with_analysis Page.sentimentScore
       Page.mood Page.initial Req.title Req.content Req.sentimentScore
       Req.mood Req.tags field_truthy field_or].
  fold result. rewrite ?Hfinite. cbn [field_or]. rewrite ?Hfinite.
  cbn [field_or]. rewrite Ht', Hc', Hscore.
  cbn [negb orb].
  assert (Hm : JsString.truthy (mood result) = true)
    by apply determineMood_truthy.
  rewrite Hm.
  unfold save, Schema.validate.
  cbn [Schema.set_title Schema.title Schema.content Schema.sentimentScore
       Schema.mood].
  rewrite Ht, Hc', Hm. cbn.
  eexists. split; [apply lookup_insert_eq|]. split; reflexivity.
Qed.

Lemma submit_after_analysis_stores_it_witness :
  exists e,
    snd (@Page.handleSubmit SpecLexicon.sample 7 "u1" "e2" None
           (@Page.contentEffect SpecLexicon.sample
              (Page.with_form
                 {| Page.title := "Day two";
                    Page.content := "I am so happy and excited today";
                    Page.tags := Example.no_tags |} Page.initial))
           Example.db) !! "e2" = Some e
    /\ Schema.sentimentScore e = Some (of_Z 7)
    /\ Schema.mood e = "Ecstatic".
Proof.
  apply (@submit_after_analysis_stores_it SpecLexicon.sample 7 "u1" "e2"
           {| Page.title := "Day two";
              Page.content := "I am so happy and excited today";
              Page.tags := Example.no_tags |} Example.db); reflexivity.
Defined.

End EditorExtras.

(* ===================================================================== *)
(** * The history page and the mood chart                                 *)
(* ===================================================================== *)

Section HistoryExtras.

Import History.

Lemma filter_twice {A : Type} (p q : A -> bool) (l : list A) :
  List.filter q (List.filter p l) = List.filter (fun x => p x && q x) l.
Proof.
  induction l as [|x l IH]; [reflexivity|]. cbn [List.filter].
  destruct (p x); cbn [List.filter andb]; [|exact IH].
  destruct (q x); now rewrite IH.
Qed.

Lemma filter_when {A : Type} (on : bool) (p : A -> bool) (l : list A) :
  (if on then List.filter p l else l) = List.filter (fun x => negb on || p x) l.
Proof.
  destruct on; cbn [negb orb]; [reflexivity|].
  induction l as [|x l IH]; [reflexivity|]. cbn [List.filter]. now f_equal.
Qed.

Lemma filter_is_sublist {A : Type} (p : A -> bool) (l : list A) :
  sublist (List.filter p l) l.
Proof.
  induction l as [|x l IH]; [constructor|]. cbn [List.filter].
  destruct (p x); now constructor.
Qed.

(** X18. The filters of the history page, applied one after the other,
    show exactly the entries that pass every filter that is set, in the
    order the entries had; a filter left empty shows everything. *)
Theorem applyFilters_shows_matching_entries `{DateApi} (entries : list Entry)
        (searchTerm selectedMood selectedTag start stop : string) :
  applyFilters entries searchTerm selectedMood selectedTag start stop
  = List.filter (shown searchTerm selectedMood selectedTag start stop) entries
  /\ sublist (applyFilters entries searchTerm selectedMood selectedTag start stop)
             entries
  /\ applyFilters entries "" "" "" "" "" = entries.
Proof.
  assert (Hone : applyFilters entries searchTerm selectedMood selectedTag
                   start stop
                 = List.filter
                     (shown searchTerm selectedMood selectedTag start stop)
                     entries).
  { unfold applyFilters, shown. cbv zeta.
    rewrite !filter_when, !filter_twice. apply filter_ext.
    intros entry. now rewrite !andb_assoc. }
  split; [exact Hone|]. split.
  - rewrite Hone. apply filter_is_sublist.
  - unfold applyFilters. reflexivity.
Qed.

Lemma toLowerCase_truthy (s : string) :
  JsString.truthy (toLowerCase s) = JsString.truthy s.
Proof. now destruct s. Qed.

(** X19. The search does not look at the case of the search term: two
    terms that differ in case only show the same entries. *)
Theorem search_ignores_case `{DateApi} (entries : list Entry)
        (term1 term2 selectedMood selectedTag start stop : string) :
  toLowerCase term1 = toLowerCase term2 ->
  applyFilters entries term1 selectedMood selectedTag start stop
  = applyFilters entries term2 selectedMood selectedTag start stop.
Proof.
  intros Heq. unfold applyFilters, matches_search.
  rewrite <- (toLowerCase_truthy term1), <- (toLowerCase_truthy term2), Heq.
  reflexivity.
Qed.

Lemma search_ignores_case_witness :
  @applyFilters no_dates two_entries "Happy" "" "" "" ""
  = @applyFilters no_dates two_entries "HAPPY" "" "" "" "".
Proof.
  apply (@search_ignores_case no_dates two_entries "Happy" "HAPPY").
  reflexivity.
Defined.

Lemma set_from_spec (seen xs : list string) (x : string) :
  List.In x (set_from seen xs) <-> List.In x xs /\ ~ List.In x seen.
Proof.
  revert seen. induction xs as [|y rest IH]; intros seen; cbn [set_from List.In].
  - tauto.
  - destruct (includes seen y) eqn:Hy.
    + apply includes_true in Hy. rewrite IH. split.
      * intros [Hin Hnot]. tauto.
      * intros [[<-|Hin] Hnot]; [contradiction|tauto].
    + apply includes_false in Hy. cbn [List.In]. rewrite IH. cbn [List.In].
      split.
      * intros [<-|[Hin Hnot]]; [tauto|]. split; [tauto|].
        intros Hs. apply Hnot. now right.
      * intros [[<-|Hin] Hnot]; [now left|].
        destruct (string_dec y x) as [->|Hne]; [now left|].
        right. split; [exact Hin|]. intros [Hs|Hs]; contradiction.
Qed.

Lemma set_from_NoDup (seen xs : list string) : List.NoDup (set_from seen xs).
Proof.
  revert seen. induction xs as [|y rest IH]; intros seen; cbn [set_from].
  - constructor.
  - destruct (includes seen y); [apply IH|].
    constructor; [|apply IH].
    rewrite set_from_spec. intros [_ Hnot]. apply Hnot. now left.
Qed.

Lemma options_spec (xs : list string) (x : string) :
  List.In x (List.filter JsString.truthy (set_from [] xs))
  <-> x <> "" /\ List.In x xs.
Proof.
  rewrite filter_In, set_from_spec. cbn [List.In]. split.
  - intros [[Hin _] Ht]. split; [|exact Hin]. intros ->. discriminate Ht.
  - intros [Hne Hin]. split; [tauto|]. destruct x; [congruence|reflexivity].
Qed.

Lemma allTags_from (entries : list Entry) (acc : list string) (x : string) :
  List.In x
    (fold_left (fun (tags : list string) entry =>
                  (tags ++ Schema.emotions (History.tags entry)
                        ++ Schema.people (History.tags entry)
                        ++ Schema.activities (History.tags entry))%list)
               entries acc)
  <-> List.In x acc
      \/ exists entry, List.In entry entries /\ has_tag x entry = true.
Proof.
  revert acc. induction entries as [|e rest IH]; intros acc; cbn [fold_left].
  - split; [now left|]. intros [Hacc|(e & [] & _)]. exact Hacc.
  - rewrite IH. rewrite !in_app_iff. unfold has_tag at 2.
    split.
    + intros [[Hacc|Hx]|(e0 & Hin & Htag)].
      * now left.
      * right. exists e. split; [now left|]. unfold has_tag.
        rewrite !orb_true_iff, !includes_true. tauto.
      * right. exists e0. split; [now right|exact Htag].
    + intros [Hacc|(e0 & [<-|Hin] & Htag)].
      * left. now left.
      * left. right. unfold has_tag in Htag.
        rewrite !orb_true_iff, !includes_true in Htag. tauto.
      * right. exists e0. split; assumption.
Qed.

(** X20. The two filter menus list every non-empty mood, and every
    non-empty tag of any category, that occurs in some entry, each once;
    so every option of the tag menu, once selected, matches at least one
    entry. *)
Theorem filter_options (entries : list Entry) :
  List.NoDup (moodOptions entries)
  /\ List.NoDup (tagOptions entries)
  /\ (forall m, List.In m (moodOptions entries)
                <-> m <> "" /\ exists entry, List.In entry entries
                                             /\ mood entry = m)
  /\ (forall t, List.In t (tagOptions entries)
                <-> t <> "" /\ exists entry, List.In entry entries
                                             /\ has_tag t entry = true).
Proof.
  split; [apply List.NoDup_filter, set_from_NoDup|].
  split; [apply List.NoDup_filter, set_from_NoDup|]. split.
  - intros m. unfold moodOptions. rewrite options_spec, in_map_iff.
    split; intros [Hne (entry & H1 & H2)];
      (split; [exact Hne|exists entry; now split]).
  - intros t. unfold tagOptions, allTags. rewrite options_spec, allTags_from.
    cbn [List.In]. split.
    + intros [Hne [[]|Hex]]. now split.
    + intros [Hne Hex]. split; [exact Hne|now right].
Qed.

(** X21. Of the seven moods the scorer gives, the pie chart has a colour
    of its own for five; entries scored [Ecstatic] or [Very Depressed] are
    drawn in the default grey. *)
Theorem extreme_moods_drawn_grey (s : number) :
  exists hex,
    MoodSummary.cell_fill (determineMood s) = MoodSummary.Colour hex
    /\ (hex = MoodSummary.DEFAULT_COLOR
        <-> determineMood s = "Ecstatic" \/ determineMood s = "Very Depressed").
Proof.
  unfold determineMood.
  repeat match goal with
         | |- context [gt s ?c] => destruct (gt s c)
         end;
    eexists; (split; [reflexivity|]); vm_compute;
    split; intros Hx; try discriminate Hx; try tauto;
    destruct Hx as [Hx|Hx]; discriminate Hx.
Qed.

End HistoryExtras.
